(** * Simulated radio transceiver driver (vendor/radio_driver.c)

    A shallow embedding of the driver: the file-static [g_radio] becomes a
    record threaded through a small state monad, together with the two
    sources of non-determinism the C code reads ([rand()] and the clock).
    Fixed-width C integers are [Z] with the wrap-around written out. *)

From Stdlib Require Import ZArith List Bool String Lia.
Import ListNotations.
Local Open Scope Z_scope.

(** ** Fixed-width integers *)

Definition u8 (x : Z) : Z := x mod 256.
Definition u16 (x : Z) : Z := x mod 65536.
Definition u32 (x : Z) : Z := x mod 4294967296.
(** Conversion to [int8_t] (two's complement). *)
Definition i8 (x : Z) : Z := (x + 128) mod 256 - 128.

(** ** Constants of radio_driver.h *)

Definition RADIO_MAX_PAYLOAD_SIZE : Z := 246.
Definition RADIO_MAX_RETRIES : Z := 5.
Definition RADIO_MAX_CHANNELS : Z := 125.
Definition RADIO_RSSI_MIN : Z := -120.
Definition RADIO_RSSI_MAX : Z := -30.
Definition RADIO_ADDRESS_SIZE : nat := 8.
Definition RADIO_NETWORK_KEY_SIZE : nat := 16.
(** Capacity of [g_radio.rx_buffer] (the literal 32 of the C file). *)
Definition RX_BUFFER_SIZE : nat := 32.

(** The C enumerations are plain integers that callers hand in unchecked
    (the driver range-checks them itself), so they are kept as codes. *)

Definition radio_power_state_t := Z.
Definition RADIO_POWER_OFF : radio_power_state_t := 0.
Definition RADIO_POWER_SLEEP : radio_power_state_t := 1.
Definition RADIO_POWER_STANDBY : radio_power_state_t := 2.
Definition RADIO_POWER_IDLE : radio_power_state_t := 3.
Definition RADIO_POWER_RX : radio_power_state_t := 4.
Definition RADIO_POWER_TX : radio_power_state_t := 5.

Definition radio_data_rate_t := Z.
Definition RADIO_DATA_RATE_1K : radio_data_rate_t := 0.
Definition RADIO_DATA_RATE_10K : radio_data_rate_t := 1.
Definition RADIO_DATA_RATE_50K : radio_data_rate_t := 2.
Definition RADIO_DATA_RATE_100K : radio_data_rate_t := 3.
Definition RADIO_DATA_RATE_250K : radio_data_rate_t := 4.

Definition radio_modulation_t := Z.
Definition RADIO_MODULATION_FSK : radio_modulation_t := 0.
Definition RADIO_MODULATION_GFSK : radio_modulation_t := 1.
Definition RADIO_MODULATION_LORA : radio_modulation_t := 2.
Definition RADIO_MODULATION_OOK : radio_modulation_t := 3.

Definition radio_packet_priority_t := Z.
Definition RADIO_PRIORITY_NORMAL : radio_packet_priority_t := 1.

(** Error codes are only ever produced by the driver. *)
Inductive radio_error_t : Set :=
| RADIO_OK
| RADIO_ERROR_INIT
| RADIO_ERROR_CONFIG
| RADIO_ERROR_TIMEOUT
| RADIO_ERROR_NO_ACK
| RADIO_ERROR_CRC
| RADIO_ERROR_INVALID_PARAM
| RADIO_ERROR_BUFFER_FULL
| RADIO_ERROR_BUFFER_EMPTY
| RADIO_ERROR_CHANNEL_BUSY
| RADIO_ERROR_POWER_FAILURE
| RADIO_ERROR_HARDWARE
| RADIO_ERROR_NOT_CONNECTED
| RADIO_ERROR_ENCRYPTION
| RADIO_ERROR_PACKET_TOO_LARGE
| RADIO_ERROR_NETWORK_FULL
| RADIO_ERROR_RATE_LIMITED.

(** ** Airtime and power models (pure functions) *)

(** [radio_calculate_airtime]: every intermediate is a [uint32_t]. *)
Definition radio_calculate_airtime
  (payload_size : Z) (data_rate : radio_data_rate_t)
  (modulation : radio_modulation_t) : Z :=
  let bps :=
    if data_rate =? RADIO_DATA_RATE_1K then 1000
    else if data_rate =? RADIO_DATA_RATE_10K then 10000
    else if data_rate =? RADIO_DATA_RATE_50K then 50000
    else if data_rate =? RADIO_DATA_RATE_100K then 100000
    else if data_rate =? RADIO_DATA_RATE_250K then 250000
    else 10000 in
  let total_bits := u32 ((payload_size + 16) * 8) in
  let total_bits :=
    if modulation =? RADIO_MODULATION_FSK then total_bits
    else if modulation =? RADIO_MODULATION_GFSK then u32 (total_bits * 9) / 10
    else if modulation =? RADIO_MODULATION_LORA then u32 (total_bits * 3) / 2
    else if modulation =? RADIO_MODULATION_OOK then u32 (total_bits * 2)
    else total_bits in
  u32 (total_bits * 1000000) / bps.

Definition radio_estimate_power_consumption
  (power_state : radio_power_state_t) (duration_ms : Z) : Z :=
  let current_ma :=
    if power_state =? RADIO_POWER_OFF then 0
    else if power_state =? RADIO_POWER_SLEEP then 1
    else if power_state =? RADIO_POWER_STANDBY then 5
    else if power_state =? RADIO_POWER_IDLE then 10
    else if power_state =? RADIO_POWER_RX then 20
    else if power_state =? RADIO_POWER_TX then 50
    else 10 in
  u32 (u32 (current_ma * 1000) * duration_ms) / 3600000.

(** ** Data model *)

Record radio_config_t : Type := mk_config {
  frequency_hz : Z;
  channel : Z;
  tx_power : Z;
  data_rate : radio_data_rate_t;
  modulation : radio_modulation_t;
  security : Z;
  network_key : list Z;
  device_address : list Z;
  network_id : Z;
  auto_ack : bool;
  auto_retry : bool;
  max_retries : Z;
  tx_timeout_ms : Z
}.

Record radio_packet_t : Type := mk_packet {
  destination : list Z;
  source : list Z;
  packet_id : Z;
  priority : radio_packet_priority_t;
  payload_size : Z;
  payload : list Z;
  timestamp : Z;
  require_ack : bool;
  retry_count : Z
}.

Record radio_stats_t : Type := mk_stats {
  packets_sent : Z;
  packets_received : Z;
  packets_lost : Z;
  retries_attempted : Z;
  crc_errors : Z;
  timeouts : Z;
  last_rssi : Z;
  channel_utilization : Z;
  total_airtime_ms : Z;
  power_consumption_mw : Z
}.

(** [info_network_id] is the [network_id] member of [radio_network_info_t]
    (renamed: [radio_config_t] has a member of the same name). *)
Record radio_network_info_t : Type := mk_info {
  info_network_id : Z;
  connected_devices : Z;
  signal_strength : Z;
  link_quality : Z;
  uptime_seconds : Z;
  is_gateway : bool;
  hop_count : Z
}.

(** Function and data pointers are addresses; [NULL] is 0. *)
Definition pointer := Z.
Definition NULL : pointer := 0.

Record radio_state_t : Type := mk_state {
  initialized : bool;
  config : radio_config_t;
  power_state : radio_power_state_t;
  stats : radio_stats_t;
  network_info : radio_network_info_t;
  connected_to_network : bool;
  rx_callback : pointer;
  rx_user_data : pointer;
  event_callback : pointer;
  event_user_data : pointer;
  next_tx_id : Z;
  last_activity_time : Z;
  rx_buffer_count : Z;
  rx_buffer : list radio_packet_t;
  rx_buffer_head : Z;
  rx_buffer_tail : Z
}.

(** *** All-zero values (what [memset(.., 0, ..)] and [= {0}] produce) *)

Definition config_zero : radio_config_t :=
  mk_config 0 0 0 0 0 0 (repeat 0 RADIO_NETWORK_KEY_SIZE)
    (repeat 0 RADIO_ADDRESS_SIZE) 0 false false 0 0.

Definition packet_zero : radio_packet_t :=
  mk_packet (repeat 0 RADIO_ADDRESS_SIZE) (repeat 0 RADIO_ADDRESS_SIZE) 0 0 0
    (repeat 0 (Z.to_nat RADIO_MAX_PAYLOAD_SIZE)) 0 false 0.

Definition stats_zero : radio_stats_t := mk_stats 0 0 0 0 0 0 0 0 0 0.

Definition info_zero : radio_network_info_t := mk_info 0 0 0 0 0 false 0.

Definition radio_state_zero : radio_state_t :=
  mk_state false config_zero RADIO_POWER_OFF stats_zero info_zero false
    NULL NULL NULL NULL 0 0 0 (repeat packet_zero RX_BUFFER_SIZE) 0 0.

(** *** Member assignment *)

Definition set_packets_sent v (t : radio_stats_t) :=
  mk_stats v (packets_received t) (packets_lost t) (retries_attempted t)
    (crc_errors t) (timeouts t) (last_rssi t) (channel_utilization t)
    (total_airtime_ms t) (power_consumption_mw t).
Definition set_packets_received v (t : radio_stats_t) :=
  mk_stats (packets_sent t) v (packets_lost t) (retries_attempted t)
    (crc_errors t) (timeouts t) (last_rssi t) (channel_utilization t)
    (total_airtime_ms t) (power_consumption_mw t).
Definition set_packets_lost v (t : radio_stats_t) :=
  mk_stats (packets_sent t) (packets_received t) v (retries_attempted t)
    (crc_errors t) (timeouts t) (last_rssi t) (channel_utilization t)
    (total_airtime_ms t) (power_consumption_mw t).
Definition set_last_rssi v (t : radio_stats_t) :=
  mk_stats (packets_sent t) (packets_received t) (packets_lost t)
    (retries_attempted t) (crc_errors t) (timeouts t) v
    (channel_utilization t) (total_airtime_ms t) (power_consumption_mw t).
Definition set_channel_utilization v (t : radio_stats_t) :=
  mk_stats (packets_sent t) (packets_received t) (packets_lost t)
    (retries_attempted t) (crc_errors t) (timeouts t) (last_rssi t) v
    (total_airtime_ms t) (power_consumption_mw t).
Definition set_total_airtime_ms v (t : radio_stats_t) :=
  mk_stats (packets_sent t) (packets_received t) (packets_lost t)
    (retries_attempted t) (crc_errors t) (timeouts t) (last_rssi t)
    (channel_utilization t) v (power_consumption_mw t).
Definition set_power_consumption_mw v (t : radio_stats_t) :=
  mk_stats (packets_sent t) (packets_received t) (packets_lost t)
    (retries_attempted t) (crc_errors t) (timeouts t) (last_rssi t)
    (channel_utilization t) (total_airtime_ms t) v.

Definition set_info_network_id v (n : radio_network_info_t) :=
  mk_info v (connected_devices n) (signal_strength n) (link_quality n)
    (uptime_seconds n) (is_gateway n) (hop_count n).
Definition set_connected_devices v (n : radio_network_info_t) :=
  mk_info (info_network_id n) v (signal_strength n) (link_quality n)
    (uptime_seconds n) (is_gateway n) (hop_count n).
Definition set_is_gateway v (n : radio_network_info_t) :=
  mk_info (info_network_id n) (connected_devices n) (signal_strength n)
    (link_quality n) (uptime_seconds n) v (hop_count n).
Definition set_signal_strength v (n : radio_network_info_t) :=
  mk_info (info_network_id n) (connected_devices n) v (link_quality n)
    (uptime_seconds n) (is_gateway n) (hop_count n).
Definition set_link_quality v (n : radio_network_info_t) :=
  mk_info (info_network_id n) (connected_devices n) (signal_strength n) v
    (uptime_seconds n) (is_gateway n) (hop_count n).
Definition set_uptime_seconds v (n : radio_network_info_t) :=
  mk_info (info_network_id n) (connected_devices n) (signal_strength n)
    (link_quality n) v (is_gateway n) (hop_count n).
Definition set_hop_count v (n : radio_network_info_t) :=
  mk_info (info_network_id n) (connected_devices n) (signal_strength n)
    (link_quality n) (uptime_seconds n) (is_gateway n) v.

Definition set_initialized v (s : radio_state_t) :=
  mk_state v (config s) (power_state s) (stats s) (network_info s)
    (connected_to_network s) (rx_callback s) (rx_user_data s)
    (event_callback s) (event_user_data s) (next_tx_id s)
    (last_activity_time s) (rx_buffer_count s) (rx_buffer s)
    (rx_buffer_head s) (rx_buffer_tail s).
Definition set_config v (s : radio_state_t) :=
  mk_state (initialized s) v (power_state s) (stats s) (network_info s)
    (connected_to_network s) (rx_callback s) (rx_user_data s)
    (event_callback s) (event_user_data s) (next_tx_id s)
    (last_activity_time s) (rx_buffer_count s) (rx_buffer s)
    (rx_buffer_head s) (rx_buffer_tail s).
Definition set_power_state v (s : radio_state_t) :=
  mk_state (initialized s) (config s) v (stats s) (network_info s)
    (connected_to_network s) (rx_callback s) (rx_user_data s)
    (event_callback s) (event_user_data s) (next_tx_id s)
    (last_activity_time s) (rx_buffer_count s) (rx_buffer s)
    (rx_buffer_head s) (rx_buffer_tail s).
Definition set_stats v (s : radio_state_t) :=
  mk_state (initialized s) (config s) (power_state s) v (network_info s)
    (connected_to_network s) (rx_callback s) (rx_user_data s)
    (event_callback s) (event_user_data s) (next_tx_id s)
    (last_activity_time s) (rx_buffer_count s) (rx_buffer s)
    (rx_buffer_head s) (rx_buffer_tail s).
Definition set_network_info v (s : radio_state_t) :=
  mk_state (initialized s) (config s) (power_state s) (stats s) v
    (connected_to_network s) (rx_callback s) (rx_user_data s)
    (event_callback s) (event_user_data s) (next_tx_id s)
    (last_activity_time s) (rx_buffer_count s) (rx_buffer s)
    (rx_buffer_head s) (rx_buffer_tail s).
Definition set_connected_to_network v (s : radio_state_t) :=
  mk_state (initialized s) (config s) (power_state s) (stats s)
    (network_info s) v (rx_callback s) (rx_user_data s)
    (event_callback s) (event_user_data s) (next_tx_id s)
    (last_activity_time s) (rx_buffer_count s) (rx_buffer s)
    (rx_buffer_head s) (rx_buffer_tail s).
Definition set_rx_callback v (s : radio_state_t) :=
  mk_state (initialized s) (config s) (power_state s) (stats s)
    (network_info s) (connected_to_network s) v (rx_user_data s)
    (event_callback s) (event_user_data s) (next_tx_id s)
    (last_activity_time s) (rx_buffer_count s) (rx_buffer s)
    (rx_buffer_head s) (rx_buffer_tail s).
Definition set_rx_user_data v (s : radio_state_t) :=
  mk_state (initialized s) (config s) (power_state s) (stats s)
    (network_info s) (connected_to_network s) (rx_callback s) v
    (event_callback s) (event_user_data s) (next_tx_id s)
    (last_activity_time s) (rx_buffer_count s) (rx_buffer s)
    (rx_buffer_head s) (rx_buffer_tail s).
Definition set_event_callback v (s : radio_state_t) :=
  mk_state (initialized s) (config s) (power_state s) (stats s)
    (network_info s) (connected_to_network s) (rx_callback s)
    (rx_user_data s) v (event_user_data s) (next_tx_id s)
    (last_activity_time s) (rx_buffer_count s) (rx_buffer s)
    (rx_buffer_head s) (rx_buffer_tail s).
Definition set_event_user_data v (s : radio_state_t) :=
  mk_state (initialized s) (config s) (power_state s) (stats s)
    (network_info s) (connected_to_network s) (rx_callback s)
    (rx_user_data s) (event_callback s) v (next_tx_id s)
    (last_activity_time s) (rx_buffer_count s) (rx_buffer s)
    (rx_buffer_head s) (rx_buffer_tail s).
Definition set_next_tx_id v (s : radio_state_t) :=
  mk_state (initialized s) (config s) (power_state s) (stats s)
    (network_info s) (connected_to_network s) (rx_callback s)
    (rx_user_data s) (event_callback s) (event_user_data s) v
    (last_activity_time s) (rx_buffer_count s) (rx_buffer s)
    (rx_buffer_head s) (rx_buffer_tail s).
Definition set_last_activity_time v (s : radio_state_t) :=
  mk_state (initialized s) (config s) (power_state s) (stats s)
    (network_info s) (connected_to_network s) (rx_callback s)
    (rx_user_data s) (event_callback s) (event_user_data s) (next_tx_id s)
    v (rx_buffer_count s) (rx_buffer s)
    (rx_buffer_head s) (rx_buffer_tail s).
Definition set_rx_buffer_count v (s : radio_state_t) :=
  mk_state (initialized s) (config s) (power_state s) (stats s)
    (network_info s) (connected_to_network s) (rx_callback s)
    (rx_user_data s) (event_callback s) (event_user_data s) (next_tx_id s)
    (last_activity_time s) v (rx_buffer s)
    (rx_buffer_head s) (rx_buffer_tail s).
Definition set_rx_buffer v (s : radio_state_t) :=
  mk_state (initialized s) (config s) (power_state s) (stats s)
    (network_info s) (connected_to_network s) (rx_callback s)
    (rx_user_data s) (event_callback s) (event_user_data s) (next_tx_id s)
    (last_activity_time s) (rx_buffer_count s) v
    (rx_buffer_head s) (rx_buffer_tail s).
Definition set_rx_buffer_head v (s : radio_state_t) :=
  mk_state (initialized s) (config s) (power_state s) (stats s)
    (network_info s) (connected_to_network s) (rx_callback s)
    (rx_user_data s) (event_callback s) (event_user_data s) (next_tx_id s)
    (last_activity_time s) (rx_buffer_count s) (rx_buffer s)
    v (rx_buffer_tail s).
Definition set_rx_buffer_tail v (s : radio_state_t) :=
  mk_state (initialized s) (config s) (power_state s) (stats s)
    (network_info s) (connected_to_network s) (rx_callback s)
    (rx_user_data s) (event_callback s) (event_user_data s) (next_tx_id s)
    (last_activity_time s) (rx_buffer_count s) (rx_buffer s)
    (rx_buffer_head s) v.

(** Assignment through a nested member, [g_radio.stats.f = ..] and
    [g_radio.network_info.f = ..]. *)
Definition on_stats (f : radio_stats_t -> radio_stats_t) (s : radio_state_t) :=
  set_stats (f (stats s)) s.
Definition on_network_info
  (f : radio_network_info_t -> radio_network_info_t) (s : radio_state_t) :=
  set_network_info (f (network_info s)) s.

(** Array element assignment [a[i] = v]; the C arrays have fixed sizes and
    every index the driver uses is in range. *)
Fixpoint array_set {A : Type} (a : list A) (i : nat) (v : A) : list A :=
  match a, i with
  | [], _ => []
  | _ :: t, O => v :: t
  | h :: t, S j => h :: array_set t j v
  end.

(** ** The machine: driver state plus its environment

    [rand_src k] is the value the [k]-th call of [rand()] returns and
    [clock_src k] the value of [clock() * 1000 / CLOCKS_PER_SEC] at the
    [k]-th reading of the clock; both are arbitrary, so a statement proved
    for every machine holds for every seed and every timing ([srand] only
    selects which sequence [rand_src] is).  [rx_callback_log] records the
    invocations of the registered receive callback (function, packet,
    user data), most recent first.  The callback itself is foreign code:
    what it does is not part of this model, in particular not a callback
    that calls back into the driver.  Statements about what a call returns
    after a packet arrived during it are therefore made for a driver with
    no receive callback registered, where the code invokes nothing. *)

Record machine : Type := mk_machine {
  g_radio : radio_state_t;
  rand_src : nat -> N;
  rand_calls : nat;
  clock_src : nat -> N;
  clock_calls : nat;
  rx_callback_log : list (pointer * radio_packet_t * pointer)
}.

Definition M (A : Type) : Type := machine -> A * machine.

Definition ret {A : Type} (a : A) : M A := fun m => (a, m).

Definition bind {A B : Type} (c : M A) (k : A -> M B) : M B :=
  fun m => let (a, m') := c m in k a m'.

Declare Scope radio_scope.
Delimit Scope radio_scope with radio.
Notation "x <- c ;; k" := (bind c (fun x => k))
  (at level 61, c at next level, right associativity) : radio_scope.
Notation "c ;; k" := (bind c (fun _ => k))
  (at level 61, right associativity) : radio_scope.
Local Open Scope radio_scope.

(** Reading and writing [g_radio]. *)
Definition load : M radio_state_t := fun m => (g_radio m, m).

Definition assign (f : radio_state_t -> radio_state_t) : M unit :=
  fun m => (tt, mk_machine (f (g_radio m)) (rand_src m) (rand_calls m)
                  (clock_src m) (clock_calls m) (rx_callback_log m)).

Definition rand : M Z :=
  fun m => (Z.of_N (rand_src m (rand_calls m)),
            mk_machine (g_radio m) (rand_src m) (S (rand_calls m))
              (clock_src m) (clock_calls m) (rx_callback_log m)).

Definition get_current_time_ms : M Z :=
  fun m => (u32 (Z.of_N (clock_src m (clock_calls m))),
            mk_machine (g_radio m) (rand_src m) (rand_calls m)
              (clock_src m) (S (clock_calls m)) (rx_callback_log m)).

(** [g_radio.rx_callback(packet, g_radio.rx_user_data)]: the call is
    recorded; the callee's own effects are not modelled. *)
Definition invoke_rx_callback (packet : radio_packet_t) : M unit :=
  fun m => (tt, mk_machine (g_radio m) (rand_src m) (rand_calls m)
                  (clock_src m) (clock_calls m)
                  ((rx_callback (g_radio m), packet, rx_user_data (g_radio m))
                     :: rx_callback_log m)).

(** ** Helper functions *)

Definition simulate_rssi : M Z :=
  r <- rand ;;
  let base_rssi := -70 in
  let variation := Z.rem r 20 - 10 in
  let rssi := i8 (base_rssi + variation) in
  let rssi := if rssi <? RADIO_RSSI_MIN then RADIO_RSSI_MIN else rssi in
  let rssi := if rssi >? RADIO_RSSI_MAX then RADIO_RSSI_MAX else rssi in
  ret rssi.

Definition simulate_channel_utilization : M Z :=
  r <- rand ;;
  ret (u8 (Z.rem r 30 + 10)).

(** [validate_config] on a non-null pointer (both callers test for NULL
    before calling it). *)
Definition validate_config (config : radio_config_t) : bool :=
  if channel config >=? RADIO_MAX_CHANNELS then false
  else if max_retries config >? RADIO_MAX_RETRIES then false
  else if tx_timeout_ms config =? 0 then false
  else true.

(** First loop of [simulate_packet_reception]: [n] iterations from index
    [i], copying the device address and drawing the source address. *)
Fixpoint fill_addresses (n i : nat) (device_address : list Z)
  (packet : radio_packet_t) : M radio_packet_t :=
  match n with
  | O => ret packet
  | S n' =>
    r <- rand ;;
    fill_addresses n' (S i) device_address
      (mk_packet (array_set (destination packet) i (nth i device_address 0))
         (array_set (source packet) i (u8 (Z.rem r 256)))
         (packet_id packet) (priority packet) (payload_size packet)
         (payload packet) (timestamp packet) (require_ack packet)
         (retry_count packet))
  end.

(** Second loop: [n] payload bytes from index [i]. *)
Fixpoint fill_payload (n i : nat) (bytes : list Z) : M (list Z) :=
  match n with
  | O => ret bytes
  | S n' =>
    r <- rand ;;
    fill_payload n' (S i) (array_set bytes i (u8 (Z.rem r 256)))
  end.

Definition simulate_packet_reception : M unit :=
  g <- load ;;
  if negb (power_state g =? RADIO_POWER_RX)
     && negb (power_state g =? RADIO_POWER_IDLE)
  then ret tt
  else
    r <- rand ;;
    if Z.rem r 100 <? 5 then
      if rx_buffer_count g <? 32 then
        let slot := Z.to_nat (rx_buffer_head g) in
        let packet := nth slot (rx_buffer g) packet_zero in
        packet <- fill_addresses RADIO_ADDRESS_SIZE 0
                    (device_address (config g)) packet ;;
        r_id <- rand ;;
        r_size <- rand ;;
        let size := u8 (Z.rem r_size 100 + 1) in
        bytes <- fill_payload (Z.to_nat size) 0 (payload packet) ;;
        now <- get_current_time_ms ;;
        let packet :=
          mk_packet (destination packet) (source packet)
            (u16 (Z.rem r_id 65536)) RADIO_PRIORITY_NORMAL size bytes
            now false 0 in
        assign (fun g => set_rx_buffer (array_set (rx_buffer g) slot packet) g) ;;
        assign (fun g =>
          set_rx_buffer_head (u8 (Z.rem (rx_buffer_head g + 1) 32)) g) ;;
        assign (fun g => set_rx_buffer_count (u8 (rx_buffer_count g + 1)) g) ;;
        assign (on_stats (fun t =>
          set_packets_received (u32 (packets_received t + 1)) t)) ;;
        g <- load ;;
        if negb (rx_callback g =? NULL) then invoke_rx_callback packet
        else ret tt
      else ret tt
    else ret tt.

(** ** API implementation

    An input pointer is an [option] ([None] is a null pointer).  An output
    pointer is a [bool] telling whether it is non-null, and the value the
    driver stores through it is returned next to the error code. *)

Definition radio_init (config : option radio_config_t) : M radio_error_t :=
  match config with
  | None => ret RADIO_ERROR_INVALID_PARAM
  | Some config =>
    if negb (validate_config config) then ret RADIO_ERROR_CONFIG
    else
      assign (fun _ => radio_state_zero) ;;
      assign (set_config config) ;;
      assign (set_initialized true) ;;
      assign (set_power_state RADIO_POWER_IDLE) ;;
      assign (set_connected_to_network false) ;;
      assign (set_next_tx_id 1) ;;
      now <- get_current_time_ms ;;
      assign (set_last_activity_time now) ;;
      assign (on_network_info (set_info_network_id (network_id config))) ;;
      assign (on_network_info (set_connected_devices 0)) ;;
      rssi <- simulate_rssi ;;
      assign (on_network_info (set_signal_strength rssi)) ;;
      assign (on_network_info (set_link_quality 0)) ;;
      assign (on_network_info (set_uptime_seconds 0)) ;;
      assign (on_network_info (set_is_gateway false)) ;;
      assign (on_network_info (set_hop_count 255)) ;;
      assign (set_stats stats_zero) ;;
      rssi <- simulate_rssi ;;
      assign (on_stats (set_last_rssi rssi)) ;;
      ret RADIO_OK
  end.

Definition radio_configure (config : option radio_config_t) : M radio_error_t :=
  g <- load ;;
  if negb (initialized g) then ret RADIO_ERROR_INIT
  else match config with
  | None => ret RADIO_ERROR_INVALID_PARAM
  | Some config =>
    if negb (validate_config config) then ret RADIO_ERROR_CONFIG
    else if negb (power_state g =? RADIO_POWER_IDLE) then ret RADIO_ERROR_CONFIG
    else
      assign (set_config config) ;;
      ret RADIO_OK
  end.

Definition radio_set_power_state (power_state' : radio_power_state_t)
  : M radio_error_t :=
  g <- load ;;
  if negb (initialized g) then ret RADIO_ERROR_INIT
  else if (power_state' <? RADIO_POWER_OFF) || (power_state' >? RADIO_POWER_TX)
  then ret RADIO_ERROR_INVALID_PARAM
  else
    let finish :=
      assign (set_power_state power_state') ;;
      now <- get_current_time_ms ;;
      assign (set_last_activity_time now) ;;
      ret RADIO_OK in
    if power_state' =? RADIO_POWER_OFF then
      assign (set_connected_to_network false) ;;
      finish
    else if power_state' =? RADIO_POWER_RX then
      if power_state g =? RADIO_POWER_OFF then ret RADIO_ERROR_CONFIG
      else finish
    else if power_state' =? RADIO_POWER_TX then
      if power_state g =? RADIO_POWER_OFF then ret RADIO_ERROR_CONFIG
      else finish
    else finish.

Definition radio_get_power_state (out : bool)
  : M (radio_error_t * option radio_power_state_t) :=
  g <- load ;;
  if negb (initialized g) then ret (RADIO_ERROR_INIT, None)
  else if negb out then ret (RADIO_ERROR_INVALID_PARAM, None)
  else ret (RADIO_OK, Some (power_state g)).

Definition radio_send_packet (packet : option radio_packet_t)
  : M radio_error_t :=
  g <- load ;;
  if negb (initialized g) then ret RADIO_ERROR_INIT
  else match packet with
  | None => ret RADIO_ERROR_INVALID_PARAM
  | Some packet =>
    if payload_size packet >? RADIO_MAX_PAYLOAD_SIZE
    then ret RADIO_ERROR_PACKET_TOO_LARGE
    else if power_state g =? RADIO_POWER_OFF
    then ret RADIO_ERROR_POWER_FAILURE
    else
      assign (set_power_state RADIO_POWER_TX) ;;
      now <- get_current_time_ms ;;
      assign (set_last_activity_time now) ;;
      g <- load ;;
      let airtime :=
        radio_calculate_airtime (payload_size packet)
          (data_rate (config g)) (modulation (config g)) in
      assign (on_stats (fun t => set_packets_sent (u32 (packets_sent t + 1)) t)) ;;
      assign (on_stats (fun t =>
        set_total_airtime_ms (u32 (total_airtime_ms t + airtime / 1000)) t)) ;;
      r <- rand ;;
      if Z.rem r 100 <? 5 then
        assign (on_stats (fun t =>
          set_packets_lost (u32 (packets_lost t + 1)) t)) ;;
        assign (set_power_state RADIO_POWER_IDLE) ;;
        ret RADIO_ERROR_NO_ACK
      else
        assign (set_power_state RADIO_POWER_IDLE) ;;
        ret RADIO_OK
  end.

Definition radio_send_packet_async (packet : option radio_packet_t)
  (tx_id : bool) : M (radio_error_t * option Z) :=
  g <- load ;;
  if negb (initialized g) then ret (RADIO_ERROR_INIT, None)
  else match packet with
  | None => ret (RADIO_ERROR_INVALID_PARAM, None)
  | Some packet =>
    if negb tx_id then ret (RADIO_ERROR_INVALID_PARAM, None)
    else if payload_size packet >? RADIO_MAX_PAYLOAD_SIZE
    then ret (RADIO_ERROR_PACKET_TOO_LARGE, None)
    else if power_state g =? RADIO_POWER_OFF
    then ret (RADIO_ERROR_POWER_FAILURE, None)
    else
      let id := next_tx_id g in
      assign (set_next_tx_id (u16 (id + 1))) ;;
      assign (on_stats (fun t => set_packets_sent (u32 (packets_sent t + 1)) t)) ;;
      ret (RADIO_OK, Some id)
  end.

Definition radio_get_tx_status (tx_id : Z) (status : bool)
  : M (radio_error_t * option radio_error_t) :=
  g <- load ;;
  if negb (initialized g) then ret (RADIO_ERROR_INIT, None)
  else if negb status then ret (RADIO_ERROR_INVALID_PARAM, None)
  else ret (RADIO_OK, Some RADIO_OK).

(** The dequeue that both branches of [radio_receive_packet] perform. *)
Definition dequeue : M radio_packet_t :=
  g <- load ;;
  let packet := nth (Z.to_nat (rx_buffer_tail g)) (rx_buffer g) packet_zero in
  assign (fun g => set_rx_buffer_tail (u8 (Z.rem (rx_buffer_tail g + 1) 32)) g) ;;
  assign (fun g => set_rx_buffer_count (u8 (rx_buffer_count g - 1)) g) ;;
  ret packet.

Definition radio_receive_packet (packet : bool) (timeout_ms : Z)
  : M (radio_error_t * option radio_packet_t) :=
  g <- load ;;
  if negb (initialized g) then ret (RADIO_ERROR_INIT, None)
  else if negb packet then ret (RADIO_ERROR_INVALID_PARAM, None)
  else if power_state g =? RADIO_POWER_OFF
  then ret (RADIO_ERROR_POWER_FAILURE, None)
  else
    simulate_packet_reception ;;
    g <- load ;;
    if rx_buffer_count g >? 0 then
      p <- dequeue ;;
      ret (RADIO_OK, Some p)
    else if timeout_ms =? 0 then ret (RADIO_ERROR_BUFFER_EMPTY, None)
    else if timeout_ms >? 100 then
      simulate_packet_reception ;;
      g <- load ;;
      if rx_buffer_count g >? 0 then
        p <- dequeue ;;
        ret (RADIO_OK, Some p)
      else ret (RADIO_ERROR_TIMEOUT, None)
    else ret (RADIO_ERROR_TIMEOUT, None).

Definition radio_set_rx_callback (callback user_data : pointer)
  : M radio_error_t :=
  g <- load ;;
  if negb (initialized g) then ret RADIO_ERROR_INIT
  else
    assign (set_rx_callback callback) ;;
    assign (set_rx_user_data user_data) ;;
    ret RADIO_OK.

Definition radio_set_event_callback (callback user_data : pointer)
  : M radio_error_t :=
  g <- load ;;
  if negb (initialized g) then ret RADIO_ERROR_INIT
  else
    assign (set_event_callback callback) ;;
    assign (set_event_user_data user_data) ;;
    ret RADIO_OK.

(** Loop of [radio_scan_networks]: [n] entries from index [i]; the result
    lists the elements stored into [networks[i]], in order. *)
Fixpoint scan_entries (n : nat) (i : Z) : M (list radio_network_info_t) :=
  match n with
  | O => ret []
  | S n' =>
    r_dev <- rand ;;
    rssi <- simulate_rssi ;;
    r_lq <- rand ;;
    r_up <- rand ;;
    r_hop <- rand ;;
    rest <- scan_entries n' (u8 (i + 1)) ;;
    ret (mk_info (u16 (1000 + i)) (u8 (Z.rem r_dev 10 + 1)) rssi
           (u8 (Z.rem r_lq 50 + 50)) (u32 (Z.rem r_up 86400)) (i =? 0)
           (u8 (Z.rem r_hop 5 + 1)) :: rest)
  end.

Definition radio_scan_networks (networks : bool) (max_networks : Z)
  (found_count : bool) (scan_time_ms : Z)
  : M (radio_error_t * option (list radio_network_info_t * Z)) :=
  g <- load ;;
  if negb (initialized g) then ret (RADIO_ERROR_INIT, None)
  else if negb networks || negb found_count
  then ret (RADIO_ERROR_INVALID_PARAM, None)
  else if power_state g =? RADIO_POWER_OFF
  then ret (RADIO_ERROR_POWER_FAILURE, None)
  else
    r <- rand ;;
    let num_networks := u8 (Z.rem r 5 + 1) in
    let num_networks :=
      if num_networks >? max_networks then max_networks else num_networks in
    found <- scan_entries (Z.to_nat num_networks) 0 ;;
    ret (RADIO_OK, Some (found, num_networks)).

Definition radio_join_network (network_id' : Z) (network_key' : option (list Z))
  (timeout_ms : Z) : M radio_error_t :=
  g <- load ;;
  if negb (initialized g) then ret RADIO_ERROR_INIT
  else match network_key' with
  | None => ret RADIO_ERROR_INVALID_PARAM
  | Some _ =>
    if power_state g =? RADIO_POWER_OFF then ret RADIO_ERROR_POWER_FAILURE
    else
      r <- rand ;;
      if Z.rem r 100 <? 10 then ret RADIO_ERROR_TIMEOUT
      else
        assign (on_network_info (set_info_network_id network_id')) ;;
        r_dev <- rand ;;
        assign (on_network_info (set_connected_devices (u8 (Z.rem r_dev 10 + 1)))) ;;
        rssi <- simulate_rssi ;;
        assign (on_network_info (set_signal_strength rssi)) ;;
        r_lq <- rand ;;
        assign (on_network_info (set_link_quality (u8 (Z.rem r_lq 30 + 70)))) ;;
        assign (on_network_info (set_uptime_seconds 0)) ;;
        assign (on_network_info (set_is_gateway false)) ;;
        r_hop <- rand ;;
        assign (on_network_info (set_hop_count (u8 (Z.rem r_hop 5 + 1)))) ;;
        assign (set_connected_to_network true) ;;
        ret RADIO_OK
  end.

Definition radio_leave_network : M radio_error_t :=
  g <- load ;;
  if negb (initialized g) then ret RADIO_ERROR_INIT
  else
    assign (set_connected_to_network false) ;;
    assign (on_network_info (set_hop_count 255)) ;;
    assign (on_network_info (set_link_quality 0)) ;;
    ret RADIO_OK.

Definition radio_get_network_info (out : bool)
  : M (radio_error_t * option radio_network_info_t) :=
  g <- load ;;
  if negb (initialized g) then ret (RADIO_ERROR_INIT, None)
  else if negb out then ret (RADIO_ERROR_INVALID_PARAM, None)
  else if negb (connected_to_network g)
  then ret (RADIO_ERROR_NOT_CONNECTED, None)
  else
    rssi <- simulate_rssi ;;
    assign (on_network_info (set_signal_strength rssi)) ;;
    now <- get_current_time_ms ;;
    assign (fun g => on_network_info
      (set_uptime_seconds (u32 (now - last_activity_time g) / 1000)) g) ;;
    g <- load ;;
    ret (RADIO_OK, Some (network_info g)).

Definition radio_measure_rssi (out : bool) : M (radio_error_t * option Z) :=
  g <- load ;;
  if negb (initialized g) then ret (RADIO_ERROR_INIT, None)
  else if negb out then ret (RADIO_ERROR_INVALID_PARAM, None)
  else if power_state g =? RADIO_POWER_OFF
  then ret (RADIO_ERROR_POWER_FAILURE, None)
  else
    rssi <- simulate_rssi ;;
    assign (on_stats (set_last_rssi rssi)) ;;
    ret (RADIO_OK, Some rssi).

Definition radio_get_channel_utilization (out : bool)
  : M (radio_error_t * option Z) :=
  g <- load ;;
  if negb (initialized g) then ret (RADIO_ERROR_INIT, None)
  else if negb out then ret (RADIO_ERROR_INVALID_PARAM, None)
  else if power_state g =? RADIO_POWER_OFF
  then ret (RADIO_ERROR_POWER_FAILURE, None)
  else
    utilization <- simulate_channel_utilization ;;
    assign (on_stats (set_channel_utilization utilization)) ;;
    ret (RADIO_OK, Some utilization).

Definition radio_get_statistics (out : bool)
  : M (radio_error_t * option radio_stats_t) :=
  g <- load ;;
  if negb (initialized g) then ret (RADIO_ERROR_INIT, None)
  else if negb out then ret (RADIO_ERROR_INVALID_PARAM, None)
  else
    rssi <- simulate_rssi ;;
    assign (on_stats (set_last_rssi rssi)) ;;
    utilization <- simulate_channel_utilization ;;
    assign (on_stats (set_channel_utilization utilization)) ;;
    now <- get_current_time_ms ;;
    g <- load ;;
    let elapsed_ms := u32 (now - last_activity_time g) in
    assign (on_stats (set_power_consumption_mw
      (radio_estimate_power_consumption (power_state g) elapsed_ms / 1000))) ;;
    g <- load ;;
    ret (RADIO_OK, Some (stats g)).

Definition radio_reset_statistics : M radio_error_t :=
  g <- load ;;
  if negb (initialized g) then ret RADIO_ERROR_INIT
  else
    assign (set_stats stats_zero) ;;
    rssi <- simulate_rssi ;;
    assign (on_stats (set_last_rssi rssi)) ;;
    ret RADIO_OK.

Definition radio_self_test (out : bool) : M (radio_error_t * option Z) :=
  g <- load ;;
  if negb (initialized g) then ret (RADIO_ERROR_INIT, None)
  else if negb out then ret (RADIO_ERROR_INVALID_PARAM, None)
  else ret (RADIO_OK, Some 4294967295).

(** The version string is written to the caller's buffer; the result is
    what ends up in front of the terminating zero. *)
Definition radio_get_firmware_version (version_string : bool)
  (buffer_size : Z) : M (radio_error_t * option string) :=
  g <- load ;;
  if negb (initialized g) then ret (RADIO_ERROR_INIT, None)
  else if negb version_string || (buffer_size <? 8)
  then ret (RADIO_ERROR_INVALID_PARAM, None)
  else
    let version := "v2.1.4-sim"%string in
    let len := Z.of_nat (String.length version) in
    let len := if len >=? buffer_size then buffer_size - 1 else len in
    ret (RADIO_OK, Some (substring 0 (Z.to_nat len) version)).

Definition radio_deinit : M radio_error_t :=
  g <- load ;;
  if negb (initialized g) then ret RADIO_ERROR_INIT
  else
    assign (set_power_state RADIO_POWER_OFF) ;;
    assign (set_connected_to_network false) ;;
    assign (set_rx_callback NULL) ;;
    assign (set_event_callback NULL) ;;
    assign (set_initialized false) ;;
    ret RADIO_OK.

(** ** Runs of the driver

    One step is an API call with its arguments, or an arrival injection
    (a call of [simulate_packet_reception], the hook through which packets
    enter the receive buffer).  [radio_get_error_string],
    [radio_calculate_airtime] and [radio_estimate_power_consumption] do not
    touch [g_radio] and are not steps. *)

Inductive radio_call : Type :=
| Call_init (config : option radio_config_t)
| Call_configure (config : option radio_config_t)
| Call_set_power_state (power_state : radio_power_state_t)
| Call_get_power_state (out : bool)
| Call_send_packet (packet : option radio_packet_t)
| Call_send_packet_async (packet : option radio_packet_t) (tx_id : bool)
| Call_get_tx_status (tx_id : Z) (status : bool)
| Call_receive_packet (packet : bool) (timeout_ms : Z)
| Call_set_rx_callback (callback user_data : pointer)
| Call_set_event_callback (callback user_data : pointer)
| Call_scan_networks (networks : bool) (max_networks : Z)
    (found_count : bool) (scan_time_ms : Z)
| Call_join_network (network_id : Z) (network_key : option (list Z))
    (timeout_ms : Z)
| Call_leave_network
| Call_get_network_info (out : bool)
| Call_measure_rssi (out : bool)
| Call_get_channel_utilization (out : bool)
| Call_get_statistics (out : bool)
| Call_reset_statistics
| Call_self_test (out : bool)
| Call_get_firmware_version (version_string : bool) (buffer_size : Z)
| Call_deinit
| Arrival.

Definition exec (c : radio_call) (m : machine) : machine :=
  match c with
  | Call_init config => snd (radio_init config m)
  | Call_configure config => snd (radio_configure config m)
  | Call_set_power_state p => snd (radio_set_power_state p m)
  | Call_get_power_state out => snd (radio_get_power_state out m)
  | Call_send_packet packet => snd (radio_send_packet packet m)
  | Call_send_packet_async packet tx_id =>
      snd (radio_send_packet_async packet tx_id m)
  | Call_get_tx_status tx_id status => snd (radio_get_tx_status tx_id status m)
  | Call_receive_packet packet timeout_ms =>
      snd (radio_receive_packet packet timeout_ms m)
  | Call_set_rx_callback callback user_data =>
      snd (radio_set_rx_callback callback user_data m)
  | Call_set_event_callback callback user_data =>
      snd (radio_set_event_callback callback user_data m)
  | Call_scan_networks networks max_networks found_count scan_time_ms =>
      snd (radio_scan_networks networks max_networks found_count scan_time_ms m)
  | Call_join_network id key timeout_ms =>
      snd (radio_join_network id key timeout_ms m)
  | Call_leave_network => snd (radio_leave_network m)
  | Call_get_network_info out => snd (radio_get_network_info out m)
  | Call_measure_rssi out => snd (radio_measure_rssi out m)
  | Call_get_channel_utilization out =>
      snd (radio_get_channel_utilization out m)
  | Call_get_statistics out => snd (radio_get_statistics out m)
  | Call_reset_statistics => snd (radio_reset_statistics m)
  | Call_self_test out => snd (radio_self_test out m)
  | Call_get_firmware_version version_string buffer_size =>
      snd (radio_get_firmware_version version_string buffer_size m)
  | Call_deinit => snd (radio_deinit m)
  | Arrival => snd (simulate_packet_reception m)
  end.

(** The machine at program start: [g_radio = {0}]. *)
Definition boot (rand_src clock_src : nat -> N) : machine :=
  mk_machine radio_state_zero rand_src 0 clock_src 0 [].

Definition run (calls : list radio_call) (m : machine) : machine :=
  fold_left (fun m c => exec c m) calls m.

Inductive reachable : machine -> Prop :=
| reachable_boot : forall rand_src clock_src, reachable (boot rand_src clock_src)
| reachable_step : forall m c, reachable m -> reachable (exec c m).

(** ** Definitions used by the statements *)

(** The configuration of the integration example in main.c. *)
Definition example_config : radio_config_t :=
  mk_config 868000000 10 2 RADIO_DATA_RATE_50K RADIO_MODULATION_GFSK 3
    (repeat 0 RADIO_NETWORK_KEY_SIZE) (repeat 0 RADIO_ADDRESS_SIZE)
    4660 true true 3 5000.

(** A packet that differs from the all-zero one in its payload length. *)
Definition packet_of_size (n : Z) : radio_packet_t :=
  mk_packet (repeat 0 RADIO_ADDRESS_SIZE) (repeat 0 RADIO_ADDRESS_SIZE) 0
    RADIO_PRIORITY_NORMAL n (repeat 0 (Z.to_nat RADIO_MAX_PAYLOAD_SIZE))
    0 true 0.

Definition no_rand : nat -> N := fun _ => 0%N.
Definition no_clock : nat -> N := fun _ => 0%N.

(** The machine right after a successful [radio_init (&example_config)],
    with every [rand()] returning [r]. *)
Definition example_machine (r : N) : machine :=
  snd (radio_init (Some example_config) (boot (fun _ => r) no_clock)).

(** A driver state whose [packets_sent] counter holds UINT32_MAX. *)
Definition saturated_machine : machine :=
  mk_machine
    (on_stats (set_packets_sent 4294967295) (g_radio (example_machine 50)))
    (fun _ => 50%N) 0 no_clock 0 [].

(** [n] asynchronous sends in a row. *)
Definition async_sends (n : nat) (m : machine) : machine :=
  Nat.iter n (exec (Call_send_packet_async (Some (packet_of_size 32)) true)) m.

(** The example machine after [radio_set_power_state(RADIO_POWER_OFF)]. *)
Definition powered_off_machine : machine :=
  snd (radio_set_power_state RADIO_POWER_OFF (example_machine 0)).

(** Transaction ids handed out by the asynchronous sends of a run. *)
Fixpoint issued_ids (calls : list radio_call) (m : machine) : list Z :=
  match calls with
  | [] => []
  | c :: rest =>
    match c with
    | Call_send_packet_async packet tx_id =>
      match snd (fst (radio_send_packet_async packet tx_id m)) with
      | Some id => [id]
      | None => []
      end
    | _ => []
    end ++ issued_ids rest (exec c m)
  end.

(** What [radio_deinit] assigns: five members, nothing else. *)
Definition deinit_state (g : radio_state_t) : radio_state_t :=
  set_initialized false
    (set_event_callback NULL
       (set_rx_callback NULL
          (set_connected_to_network false
             (set_power_state RADIO_POWER_OFF g)))).

(** Bit rate selected by the first switch of [radio_calculate_airtime]. *)
Definition bps_of (data_rate : radio_data_rate_t) : Z :=
  if data_rate =? RADIO_DATA_RATE_1K then 1000
  else if data_rate =? RADIO_DATA_RATE_10K then 10000
  else if data_rate =? RADIO_DATA_RATE_50K then 50000
  else if data_rate =? RADIO_DATA_RATE_100K then 100000
  else if data_rate =? RADIO_DATA_RATE_250K then 250000
  else 10000.

(** The receive-buffer bookkeeping the code maintains. *)
Definition rx_consistent (g : radio_state_t) : Prop :=
  0 <= rx_buffer_count g <= 32
  /\ 0 <= rx_buffer_head g < 32
  /\ 0 <= rx_buffer_tail g < 32
  /\ (rx_buffer_head g - rx_buffer_tail g) mod 32 = rx_buffer_count g mod 32.

(** [maintains P c]: running [c] keeps [P] true of [g_radio]. *)
Definition maintains (P : radio_state_t -> Prop) {A : Type} (c : M A) : Prop :=
  forall m, P (g_radio m) -> P (g_radio (snd (c m))).

(** The driver state after one packet has been stored at the head. *)
Definition enqueued (g : radio_state_t) (packet : radio_packet_t)
  : radio_state_t :=
  on_stats (fun t => set_packets_received (u32 (packets_received t + 1)) t)
    (set_rx_buffer_count (u8 (rx_buffer_count g + 1))
       (set_rx_buffer_head (u8 (Z.rem (rx_buffer_head g + 1) 32))
          (set_rx_buffer
             (array_set (rx_buffer g) (Z.to_nat (rx_buffer_head g)) packet)
             g))).

(** The driver state after the packet at the tail has been taken. *)
Definition dequeued (g : radio_state_t) : radio_state_t :=
  set_rx_buffer_count (u8 (rx_buffer_count g - 1))
    (set_rx_buffer_tail (u8 (Z.rem (rx_buffer_tail g + 1) 32)) g).

(** Whether a call of [simulate_packet_reception] generates a packet: the
    radio listens (Rx or Idle) and the draw [rand() % 100] is below 5. *)
Definition arrival_due (m : machine) : bool :=
  negb (negb (power_state (g_radio m) =? RADIO_POWER_RX)
        && negb (power_state (g_radio m) =? RADIO_POWER_IDLE))
  && (Z.rem (Z.of_N (rand_src m (rand_calls m))) 100 <? 5).

(** The example machine after 32 arrival injections, each of which
    generates a packet (every [rand()] returns 0). *)
Definition full_buffer_calls : list radio_call :=
  Call_init (Some example_config) :: repeat Arrival 32.

Definition full_buffer_machine : machine :=
  run full_buffer_calls (boot no_rand no_clock).

(** ** Definitions used by the further properties *)

(** Error code a step returns; an arrival injection returns nothing. *)
Definition status_of (c : radio_call) (m : machine) : option radio_error_t :=
  match c with
  | Call_init config => Some (fst (radio_init config m))
  | Call_configure config => Some (fst (radio_configure config m))
  | Call_set_power_state p => Some (fst (radio_set_power_state p m))
  | Call_get_power_state out => Some (fst (fst (radio_get_power_state out m)))
  | Call_send_packet packet => Some (fst (radio_send_packet packet m))
  | Call_send_packet_async packet tx_id =>
      Some (fst (fst (radio_send_packet_async packet tx_id m)))
  | Call_get_tx_status tx_id status =>
      Some (fst (fst (radio_get_tx_status tx_id status m)))
  | Call_receive_packet packet timeout_ms =>
      Some (fst (fst (radio_receive_packet packet timeout_ms m)))
  | Call_set_rx_callback callback user_data =>
      Some (fst (radio_set_rx_callback callback user_data m))
  | Call_set_event_callback callback user_data =>
      Some (fst (radio_set_event_callback callback user_data m))
  | Call_scan_networks networks max_networks found_count scan_time_ms =>
      Some (fst (fst (radio_scan_networks networks max_networks found_count
                        scan_time_ms m)))
  | Call_join_network id key timeout_ms =>
      Some (fst (radio_join_network id key timeout_ms m))
  | Call_leave_network => Some (fst (radio_leave_network m))
  | Call_get_network_info out => Some (fst (fst (radio_get_network_info out m)))
  | Call_measure_rssi out => Some (fst (fst (radio_measure_rssi out m)))
  | Call_get_channel_utilization out =>
      Some (fst (fst (radio_get_channel_utilization out m)))
  | Call_get_statistics out => Some (fst (fst (radio_get_statistics out m)))
  | Call_reset_statistics => Some (fst (radio_reset_statistics m))
  | Call_self_test out => Some (fst (fst (radio_self_test out m)))
  | Call_get_firmware_version version_string buffer_size =>
      Some (fst (fst (radio_get_firmware_version version_string buffer_size m)))
  | Call_deinit => Some (fst (radio_deinit m))
  | Arrival => None
  end.

(** The API calls that begin with the [!g_radio.initialized] test: all of
    them except [radio_init]. *)
Definition needs_init (c : radio_call) : bool :=
  match c with
  | Call_init _ | Arrival => false
  | _ => true
  end.

(** A machine on which the driver was never initialized. *)
Definition cold_machine : machine := boot no_rand no_clock.

(** The value [simulate_rssi] computes from the draw [r]. *)
Definition rssi_sample (r : Z) : Z :=
  let rssi := i8 (-70 + (Z.rem r 20 - 10)) in
  let rssi := if rssi <? RADIO_RSSI_MIN then RADIO_RSSI_MIN else rssi in
  if rssi >? RADIO_RSSI_MAX then RADIO_RSSI_MAX else rssi.

(** The [k]-th value [rand()] will return from machine [m] on. *)
Definition draw (m : machine) (k : nat) : Z :=
  Z.of_N (rand_src m (rand_calls m + k)%nat).

(** The next reading of the millisecond clock. *)
Definition clock_now (m : machine) : Z :=
  u32 (Z.of_N (clock_src m (clock_calls m))).

(** The driver state [radio_init] builds from a configuration, the clock
    reading and the two RSSI samples it takes. *)
Definition fresh_state (cfg : radio_config_t) (now rssi_link rssi_stats : Z)
  : radio_state_t :=
  mk_state true cfg RADIO_POWER_IDLE
    (mk_stats 0 0 0 0 0 0 rssi_stats 0 0 0)
    (mk_info (network_id cfg) 0 rssi_link 0 0 false 255)
    false NULL NULL NULL NULL 1 now 0 (repeat packet_zero RX_BUFFER_SIZE) 0 0.

(** Current draw selected by the switch of
    [radio_estimate_power_consumption], in milliamps. *)
Definition current_ma_of (power_state : radio_power_state_t) : Z :=
  if power_state =? RADIO_POWER_OFF then 0
  else if power_state =? RADIO_POWER_SLEEP then 1
  else if power_state =? RADIO_POWER_STANDBY then 5
  else if power_state =? RADIO_POWER_IDLE then 10
  else if power_state =? RADIO_POWER_RX then 20
  else if power_state =? RADIO_POWER_TX then 50
  else 10.

(** What [radio_scan_networks] stores into [networks[idx]]: the id counts
    up from 1000, only entry 0 is flagged as gateway, and the drawn fields
    lie in their ranges. *)
Definition scan_entry_ok (idx : Z) (e : radio_network_info_t) : Prop :=
  info_network_id e = 1000 + idx
  /\ (is_gateway e = true <-> idx = 0)
  /\ 1 <= connected_devices e <= 10
  /\ -80 <= signal_strength e <= -61
  /\ 50 <= link_quality e <= 99
  /\ 0 <= uptime_seconds e < 86400
  /\ 1 <= hop_count e <= 5.

(** The [n] packets stored in the ring from slot [start] on, oldest
    first. *)
Fixpoint ring_contents (buf : list radio_packet_t) (start : Z) (n : nat)
  : list radio_packet_t :=
  match n with
  | O => []
  | S k =>
    nth (Z.to_nat start) buf packet_zero
      :: ring_contents buf ((start + 1) mod 32) k
  end.

(** The packets waiting in the receive buffer, oldest first. *)
Definition rx_queue (g : radio_state_t) : list radio_packet_t :=
  ring_contents (rx_buffer g) (rx_buffer_tail g) (Z.to_nat (rx_buffer_count g)).

(** The receive buffer has its 32 slots. *)
Definition rx_sized (g : radio_state_t) : Prop :=
  List.length (rx_buffer g) = RX_BUFFER_SIZE.

(** [m'] differs from [m] at most in the number of draws taken. *)
Definition only_draws (m m' : machine) : Prop :=
  g_radio m' = g_radio m
  /\ rand_src m' = rand_src m
  /\ clock_src m' = clock_src m
  /\ clock_calls m' = clock_calls m
  /\ rx_callback_log m' = rx_callback_log m.

(** The machine after [radio_init (&example_config)] at program start,
    every [rand()] returning 0. *)
Definition started_machine : machine :=
  run [Call_init (Some example_config)] (boot no_rand no_clock).

(** The integer value of an error code in radio_driver.h. *)
Definition error_code (e : radio_error_t) : Z :=
  match e with
  | RADIO_OK => 0
  | RADIO_ERROR_INIT => -1
  | RADIO_ERROR_CONFIG => -2
  | RADIO_ERROR_TIMEOUT => -3
  | RADIO_ERROR_NO_ACK => -4
  | RADIO_ERROR_CRC => -5
  | RADIO_ERROR_INVALID_PARAM => -6
  | RADIO_ERROR_BUFFER_FULL => -7
  | RADIO_ERROR_BUFFER_EMPTY => -8
  | RADIO_ERROR_CHANNEL_BUSY => -9
  | RADIO_ERROR_POWER_FAILURE => -10
  | RADIO_ERROR_HARDWARE => -11
  | RADIO_ERROR_NOT_CONNECTED => -12
  | RADIO_ERROR_ENCRYPTION => -13
  | RADIO_ERROR_PACKET_TOO_LARGE => -14
  | RADIO_ERROR_NETWORK_FULL => -15
  | RADIO_ERROR_RATE_LIMITED => -16
  end.

(** [radio_get_error_string], on the integer the caller passes. *)
Definition radio_get_error_string (error : Z) : string :=
  if error =? error_code RADIO_OK then "Success"
  else if error =? error_code RADIO_ERROR_INIT then "Initialization error"
  else if error =? error_code RADIO_ERROR_CONFIG then "Configuration error"
  else if error =? error_code RADIO_ERROR_TIMEOUT then "Operation timeout"
  else if error =? error_code RADIO_ERROR_NO_ACK
  then "No acknowledgment received"
  else if error =? error_code RADIO_ERROR_CRC then "CRC error"
  else if error =? error_code RADIO_ERROR_INVALID_PARAM
  then "Invalid parameter"
  else if error =? error_code RADIO_ERROR_BUFFER_FULL then "Buffer full"
  else if error =? error_code RADIO_ERROR_BUFFER_EMPTY then "Buffer empty"
  else if error =? error_code RADIO_ERROR_CHANNEL_BUSY then "Channel busy"
  else if error =? error_code RADIO_ERROR_POWER_FAILURE
  then "Power supply failure"
  else if error =? error_code RADIO_ERROR_HARDWARE then "Hardware failure"
  else if error =? error_code RADIO_ERROR_NOT_CONNECTED
  then "Not connected to network"
  else if error =? error_code RADIO_ERROR_ENCRYPTION
  then "Encryption/decryption error"
  else if error =? error_code RADIO_ERROR_PACKET_TOO_LARGE
  then "Packet exceeds size limit"
  else if error =? error_code RADIO_ERROR_NETWORK_FULL
  then "Network capacity exceeded"
  else if error =? error_code RADIO_ERROR_RATE_LIMITED
  then "Rate limit exceeded"
  else "Unknown error".

(** The firmware version string of the simulation. *)
Definition firmware_version : string := "v2.1.4-sim".

(** Lifecycle and association facts the driver keeps true of [g_radio]. *)
Definition driver_wf (g : radio_state_t) : Prop :=
  RADIO_POWER_OFF <= power_state g <= RADIO_POWER_TX
  /\ 0 <= next_tx_id g < 65536
  /\ (initialized g = false ->
      power_state g = RADIO_POWER_OFF /\ connected_to_network g = false)
  /\ (initialized g = true -> validate_config (config g) = true)
  /\ (connected_to_network g = true ->
      power_state g <> RADIO_POWER_OFF
      /\ 1 <= hop_count (network_info g) <= 5
      /\ 70 <= link_quality (network_info g) <= 99).

(** A run made of API calls only, without arrival injections from
    outside. *)
Definition api_only (calls : list radio_call) : bool :=
  forallb (fun c => match c with Arrival => false | _ => true end) calls.

(** The example driver after joining network 0x1234 (every [rand()]
    returns 50, so the join is admitted). *)
Definition joined_machine : machine :=
  run [Call_init (Some example_config);
       Call_join_network 4660 (Some (repeat 0 RADIO_NETWORK_KEY_SIZE)) 1000]
    (boot (fun _ => 50%N) no_clock).

(** Calls, with all pointers given, of the functions that test for
    [RADIO_POWER_OFF] besides the two send functions. *)
Definition power_gated (c : radio_call) : bool :=
  match c with
  | Call_receive_packet true _ => true
  | Call_scan_networks true _ true _ => true
  | Call_join_network _ (Some _) _ => true
  | Call_measure_rssi true => true
  | Call_get_channel_utilization true => true
  | _ => false
  end.

(** Calls that pass a null pointer where the driver tests for one. *)
Definition null_argument (c : radio_call) : bool :=
  match c with
  | Call_init None => true
  | Call_configure None => true
  | Call_get_power_state false => true
  | Call_send_packet None => true
  | Call_send_packet_async None _ => true
  | Call_send_packet_async (Some _) false => true
  | Call_get_tx_status _ false => true
  | Call_receive_packet false _ => true
  | Call_scan_networks false _ _ _ => true
  | Call_scan_networks true _ false _ => true
  | Call_join_network _ None _ => true
  | Call_get_network_info false => true
  | Call_measure_rssi false => true
  | Call_get_channel_utilization false => true
  | Call_get_statistics false => true
  | Call_self_test false => true
  | Call_get_firmware_version false _ => true
  | _ => false
  end.

(** * Properties *)

(** ** Transmit pipeline *)

Ltac step_monad :=
  unfold bind, ret, load, assign, rand, get_current_time_ms; cbn.

Ltac split_if :=
  match goal with
  | |- context [if ?b then _ else _] => destruct b eqn:?
  end.

(** The size check of the synchronous path: nothing is assigned before
    it returns. *)
Lemma send_packet_too_large (m : machine) (p : radio_packet_t) :
  initialized (g_radio m) = true ->
  payload_size p > RADIO_MAX_PAYLOAD_SIZE ->
  radio_send_packet (Some p) m = (RADIO_ERROR_PACKET_TOO_LARGE, m).
Proof.
  intros Hinit Hsize. unfold radio_send_packet. step_monad.
  rewrite Hinit. cbn.
  destruct (Z.gtb_spec (payload_size p) RADIO_MAX_PAYLOAD_SIZE);
    [reflexivity | lia].
Qed.

(** C4 -- an oversized packet is rejected with PACKET_TOO_LARGE before
    anything is touched: the machine (driver state, statistics and power
    state included, and the environment with it) is the same before and
    after the call. *)
Theorem send_oversized_rejected (m : machine) (p : radio_packet_t) :
  initialized (g_radio m) = true ->
  payload_size p > RADIO_MAX_PAYLOAD_SIZE ->
  let r := radio_send_packet (Some p) m in
  fst r = RADIO_ERROR_PACKET_TOO_LARGE
  /\ snd r = m
  /\ stats (g_radio (snd r)) = stats (g_radio m)
  /\ power_state (g_radio (snd r)) = power_state (g_radio m).
Proof.
  intros Hinit Hsize r. subst r.
  rewrite (send_packet_too_large m p Hinit Hsize). repeat split.
Qed.

Lemma send_oversized_rejected_witness :
  let m := example_machine 0 in
  let r := radio_send_packet (Some (packet_of_size 247)) m in
  fst r = RADIO_ERROR_PACKET_TOO_LARGE
  /\ snd r = m
  /\ stats (g_radio (snd r)) = stats (g_radio m)
  /\ power_state (g_radio (snd r)) = power_state (g_radio m).
Proof.
  apply (send_oversized_rejected (example_machine 0) (packet_of_size 247)).
  - reflexivity.
  - vm_compute. reflexivity.
Defined.

(** The same admission check in the asynchronous path. *)
Lemma send_async_oversized_rejected (m : machine) (p : radio_packet_t) :
  initialized (g_radio m) = true ->
  payload_size p > RADIO_MAX_PAYLOAD_SIZE ->
  radio_send_packet_async (Some p) true m
  = ((RADIO_ERROR_PACKET_TOO_LARGE, None), m).
Proof.
  intros Hinit Hsize. unfold radio_send_packet_async. step_monad.
  rewrite Hinit. cbn.
  destruct (Z.gtb_spec (payload_size p) RADIO_MAX_PAYLOAD_SIZE);
    [reflexivity | lia].
Qed.

(** What an admitted synchronous send does to the members the claims
    speak about. *)
Lemma send_packet_effect (m : machine) (p : radio_packet_t) :
  initialized (g_radio m) = true ->
  payload_size p <= RADIO_MAX_PAYLOAD_SIZE ->
  power_state (g_radio m) <> RADIO_POWER_OFF ->
  let r := radio_send_packet (Some p) m in
  let g := g_radio m in
  let g' := g_radio (snd r) in
  (fst r = RADIO_OK \/ fst r = RADIO_ERROR_NO_ACK)
  /\ power_state g' = RADIO_POWER_IDLE
  /\ packets_sent (stats g') = u32 (packets_sent (stats g) + 1)
  /\ total_airtime_ms (stats g')
     = u32 (total_airtime_ms (stats g)
            + radio_calculate_airtime (payload_size p) (data_rate (config g))
                (modulation (config g)) / 1000).
Proof.
  intros Hinit Hsize Hpow. unfold radio_send_packet. step_monad.
  rewrite Hinit. cbn.
  destruct (Z.gtb_spec (payload_size p) RADIO_MAX_PAYLOAD_SIZE); [lia|].
  destruct (Z.eqb_spec (power_state (g_radio m)) RADIO_POWER_OFF);
    [contradiction|].
  split_if; cbn; repeat split; auto.
Qed.

(** C1 (as amended) -- an admitted synchronous send returns RADIO_OK or
    RADIO_ERROR_NO_ACK, leaves the power state at Idle, and advances
    [packets_sent] by one in 32-bit arithmetic: exactly one more whenever
    the counter was below 4294967295. *)
Theorem send_packet_accepted (m : machine) (p : radio_packet_t) :
  initialized (g_radio m) = true ->
  payload_size p <= RADIO_MAX_PAYLOAD_SIZE ->
  power_state (g_radio m) <> RADIO_POWER_OFF ->
  let r := radio_send_packet (Some p) m in
  let sent := packets_sent (stats (g_radio m)) in
  let sent' := packets_sent (stats (g_radio (snd r))) in
  (fst r = RADIO_OK \/ fst r = RADIO_ERROR_NO_ACK)
  /\ power_state (g_radio (snd r)) = RADIO_POWER_IDLE
  /\ sent' = u32 (sent + 1)
  /\ (0 <= sent < 4294967295 -> sent' = sent + 1).
Proof.
  intros Hinit Hsize Hpow r sent sent'.
  destruct (send_packet_effect m p Hinit Hsize Hpow) as (Hr & Hp & Hs & _).
  repeat split; try assumption.
  intros Hrange. subst sent'. fold r in Hs. rewrite Hs.
  unfold u32. apply Z.mod_small. fold sent. lia.
Qed.

Lemma send_packet_accepted_witness :
  let m := example_machine 0 in
  let r := radio_send_packet (Some (packet_of_size 32)) m in
  let sent := packets_sent (stats (g_radio m)) in
  let sent' := packets_sent (stats (g_radio (snd r))) in
  (fst r = RADIO_OK \/ fst r = RADIO_ERROR_NO_ACK)
  /\ power_state (g_radio (snd r)) = RADIO_POWER_IDLE
  /\ sent' = u32 (sent + 1)
  /\ (0 <= sent < 4294967295 -> sent' = sent + 1).
Proof.
  apply (send_packet_accepted (example_machine 0) (packet_of_size 32)).
  - reflexivity.
  - vm_compute. discriminate.
  - vm_compute. discriminate.
Defined.

(** C1, as stated, fails where the 32-bit counter wraps: the send is
    admitted and returns RADIO_OK, yet [packets_sent] goes from 4294967295
    to 0 instead of one higher. *)
Lemma send_packet_counter_wraps :
  let m := saturated_machine in
  let r := radio_send_packet (Some (packet_of_size 32)) m in
  initialized (g_radio m) = true
  /\ power_state (g_radio m) = RADIO_POWER_IDLE
  /\ packets_sent (stats (g_radio m)) = 4294967295
  /\ fst r = RADIO_OK
  /\ packets_sent (stats (g_radio (snd r))) = 0
  /\ packets_sent (stats (g_radio (snd r)))
     <> packets_sent (stats (g_radio m)) + 1.
Proof. vm_compute. repeat split; congruence. Qed.

(** C8 (as amended) -- while the power state is Off, a send of a packet
    that passes the size check fails with POWER_FAILURE on both paths and
    changes nothing; an oversized packet is turned away by the size check,
    which comes first, with PACKET_TOO_LARGE. *)
Theorem send_while_off (m : machine) (p : radio_packet_t) :
  initialized (g_radio m) = true ->
  power_state (g_radio m) = RADIO_POWER_OFF ->
  (payload_size p <= RADIO_MAX_PAYLOAD_SIZE ->
     radio_send_packet (Some p) m = (RADIO_ERROR_POWER_FAILURE, m)
     /\ radio_send_packet_async (Some p) true m
        = ((RADIO_ERROR_POWER_FAILURE, None), m))
  /\ (payload_size p > RADIO_MAX_PAYLOAD_SIZE ->
     radio_send_packet (Some p) m = (RADIO_ERROR_PACKET_TOO_LARGE, m)
     /\ radio_send_packet_async (Some p) true m
        = ((RADIO_ERROR_PACKET_TOO_LARGE, None), m)).
Proof.
  intros Hinit Hoff. split; intros Hsize.
  - unfold radio_send_packet, radio_send_packet_async. step_monad.
    rewrite Hinit, Hoff. cbn.
    destruct (Z.gtb_spec (payload_size p) RADIO_MAX_PAYLOAD_SIZE); [lia|].
    split; reflexivity.
  - split.
    + apply send_packet_too_large; assumption.
    + apply send_async_oversized_rejected; assumption.
Qed.

Lemma send_while_off_witness :
  radio_send_packet (Some (packet_of_size 32)) powered_off_machine
  = (RADIO_ERROR_POWER_FAILURE, powered_off_machine)
  /\ radio_send_packet_async (Some (packet_of_size 32)) true powered_off_machine
     = ((RADIO_ERROR_POWER_FAILURE, None), powered_off_machine).
Proof.
  apply (send_while_off powered_off_machine (packet_of_size 32)).
  - reflexivity.
  - reflexivity.
  - vm_compute. discriminate.
Defined.

(** C8, as stated, fails for an oversized packet: with the radio Off both
    send paths answer PACKET_TOO_LARGE, not POWER_FAILURE. *)
Lemma send_while_off_oversized :
  let m := powered_off_machine in
  let p := packet_of_size 247 in
  initialized (g_radio m) = true
  /\ power_state (g_radio m) = RADIO_POWER_OFF
  /\ fst (radio_send_packet (Some p) m) = RADIO_ERROR_PACKET_TOO_LARGE
  /\ fst (radio_send_packet (Some p) m) <> RADIO_ERROR_POWER_FAILURE
  /\ fst (radio_send_packet_async (Some p) true m)
     = (RADIO_ERROR_PACKET_TOO_LARGE, None)
  /\ fst (fst (radio_send_packet_async (Some p) true m))
     <> RADIO_ERROR_POWER_FAILURE.
Proof. vm_compute. repeat split; discriminate. Qed.

(** C5 (as amended) -- the driver keeps no transaction table: for every
    initialized state and every id, issued or not, [radio_get_tx_status]
    succeeds, stores RADIO_OK as the status and changes nothing. *)
Theorem get_tx_status_always_ok (m : machine) (tx_id : Z) :
  initialized (g_radio m) = true ->
  radio_get_tx_status tx_id true m = ((RADIO_OK, Some RADIO_OK), m).
Proof.
  intros Hinit. unfold radio_get_tx_status. step_monad.
  rewrite Hinit. reflexivity.
Qed.

Lemma get_tx_status_always_ok_witness :
  radio_get_tx_status 7 true (example_machine 0)
  = ((RADIO_OK, Some RADIO_OK), example_machine 0).
Proof. apply get_tx_status_always_ok. reflexivity. Defined.

(** C5, as stated, fails: after init and one asynchronous send (which
    issues id 1), a status query for id 7, never issued, does not fail; it
    returns RADIO_OK with status RADIO_OK. *)
Lemma get_tx_status_unknown_id :
  let calls := [Call_init (Some example_config);
                Call_send_packet_async (Some (packet_of_size 32)) true] in
  let m0 := boot no_rand no_clock in
  let m := run calls m0 in
  initialized (g_radio m) = true
  /\ issued_ids calls m0 = [1]
  /\ ~ In 7 (issued_ids calls m0)
  /\ fst (radio_get_tx_status 7 true m) = (RADIO_OK, Some RADIO_OK).
Proof.
  vm_compute. repeat split.
  intros [H | []]. discriminate H.
Qed.

(** ** Lifecycle *)

(** C6 (as amended) -- on an initialized driver [radio_deinit] succeeds
    and clears exactly the initialized flag, the power state (Off), the
    connection flag and the two callback pointers; statistics,
    configuration, receive buffer with its indices and count, next
    transaction id, network information, last-activity time and the two
    user-data pointers keep their values. *)
Theorem deinit_clears_five_members (m : machine) :
  initialized (g_radio m) = true ->
  let r := radio_deinit m in
  let g := g_radio m in
  let g' := g_radio (snd r) in
  fst r = RADIO_OK
  /\ snd r = mk_machine (deinit_state g) (rand_src m) (rand_calls m)
               (clock_src m) (clock_calls m) (rx_callback_log m)
  /\ initialized g' = false
  /\ power_state g' = RADIO_POWER_OFF
  /\ connected_to_network g' = false
  /\ rx_callback g' = NULL
  /\ event_callback g' = NULL
  /\ stats g' = stats g
  /\ config g' = config g
  /\ rx_buffer_count g' = rx_buffer_count g
  /\ rx_buffer g' = rx_buffer g
  /\ rx_buffer_head g' = rx_buffer_head g
  /\ rx_buffer_tail g' = rx_buffer_tail g
  /\ next_tx_id g' = next_tx_id g
  /\ network_info g' = network_info g
  /\ last_activity_time g' = last_activity_time g
  /\ rx_user_data g' = rx_user_data g
  /\ event_user_data g' = event_user_data g.
Proof.
  intros Hinit. unfold radio_deinit. step_monad.
  rewrite Hinit. cbn. repeat split.
Qed.

Lemma deinit_clears_five_members_witness :
  let m := example_machine 0 in
  fst (radio_deinit m) = RADIO_OK
  /\ snd (radio_deinit m)
     = mk_machine (deinit_state (g_radio m)) (rand_src m) (rand_calls m)
         (clock_src m) (clock_calls m) (rx_callback_log m).
Proof.
  destruct (deinit_clears_five_members (example_machine 0)) as (H1 & H2 & _).
  - reflexivity.
  - split; [exact H1 | exact H2].
Defined.

(** C6, as stated, fails: after init, one send and deinit, the state is
    not the cleared default; the sent counter, the configuration and the
    next transaction id survive. *)
Lemma deinit_keeps_statistics :
  let calls := [Call_init (Some example_config);
                Call_send_packet (Some (packet_of_size 32))] in
  let m := run calls (boot (fun _ => 50%N) no_clock) in
  let g' := g_radio (snd (radio_deinit m)) in
  initialized (g_radio m) = true
  /\ fst (radio_deinit m) = RADIO_OK
  /\ packets_sent (stats g') = 1
  /\ config g' = example_config
  /\ next_tx_id g' = 1
  /\ g' <> radio_state_zero.
Proof.
  vm_compute. repeat split. discriminate.
Qed.

(** ** Power state machine *)

(** C2 -- on an initialized driver and for a requested state among the
    six: Rx or Tx requested while Off fails with a Configuration error and
    nothing changes; Off succeeds from every state and clears the
    connection flag; every other request succeeds and becomes the power
    state. *)
Theorem set_power_state_transitions (m : machine) (req : radio_power_state_t) :
  initialized (g_radio m) = true ->
  RADIO_POWER_OFF <= req <= RADIO_POWER_TX ->
  let r := radio_set_power_state req m in
  let cur := power_state (g_radio m) in
  let blocked :=
    (req = RADIO_POWER_RX \/ req = RADIO_POWER_TX) /\ cur = RADIO_POWER_OFF in
  (blocked ->
     fst r = RADIO_ERROR_CONFIG
     /\ power_state (g_radio (snd r)) = cur
     /\ snd r = m)
  /\ (req = RADIO_POWER_OFF ->
     fst r = RADIO_OK
     /\ power_state (g_radio (snd r)) = RADIO_POWER_OFF
     /\ connected_to_network (g_radio (snd r)) = false)
  /\ (~ blocked ->
     fst r = RADIO_OK /\ power_state (g_radio (snd r)) = req).
Proof.
  intros Hinit Hreq. unfold radio_set_power_state. step_monad.
  rewrite Hinit. cbn.
  unfold RADIO_POWER_OFF, RADIO_POWER_RX, RADIO_POWER_TX in *.
  destruct (Z.ltb_spec req 0); [lia|].
  destruct (Z.gtb_spec req 5); [lia|]. cbn.
  destruct (Z.eqb_spec req 0); cbn.
  { repeat split; intros; try reflexivity; lia. }
  destruct (Z.eqb_spec req 4); cbn.
  { destruct (Z.eqb_spec (power_state (g_radio m)) 0); cbn;
      repeat split; intros; try reflexivity; try tauto; lia. }
  destruct (Z.eqb_spec req 5); cbn.
  { destruct (Z.eqb_spec (power_state (g_radio m)) 0); cbn;
      repeat split; intros; try reflexivity; try tauto; lia. }
  repeat split; intros; try reflexivity; lia.
Qed.

Lemma set_power_state_transitions_witness :
  let m := powered_off_machine in
  let r := radio_set_power_state RADIO_POWER_RX m in
  fst r = RADIO_ERROR_CONFIG
  /\ power_state (g_radio (snd r)) = power_state (g_radio m)
  /\ snd r = m.
Proof.
  destruct (set_power_state_transitions powered_off_machine RADIO_POWER_RX)
    as (Hblocked & _).
  - reflexivity.
  - vm_compute. split; discriminate.
  - apply Hblocked. split; [left; reflexivity | reflexivity].
Defined.

(** ** Airtime model *)

Example airtime_32_50k_gfsk :
  radio_calculate_airtime 32 RADIO_DATA_RATE_50K RADIO_MODULATION_GFSK = 6900.
Proof. reflexivity. Qed.

Lemma u32_small (x : Z) : 0 <= x < 4294967296 -> u32 x = x.
Proof. intros H. unfold u32. apply Z.mod_small. exact H. Qed.

Lemma bps_of_pos (data_rate : radio_data_rate_t) : 0 < bps_of data_rate.
Proof. unfold bps_of. repeat split_if; lia. Qed.

(** Up to the maximum payload no [uint32_t] intermediate wraps, so the
    airtime is the truncated quotient of the scaled bit count. *)
Lemma airtime_no_wrap (n : Z) (data_rate : radio_data_rate_t)
  (modulation : radio_modulation_t) :
  0 <= n <= RADIO_MAX_PAYLOAD_SIZE ->
  radio_calculate_airtime n data_rate modulation
  = (let bits := (n + 16) * 8 in
     if modulation =? RADIO_MODULATION_FSK then bits
     else if modulation =? RADIO_MODULATION_GFSK then bits * 9 / 10
     else if modulation =? RADIO_MODULATION_LORA then bits * 3 / 2
     else if modulation =? RADIO_MODULATION_OOK then bits * 2
     else bits) * 1000000 / bps_of data_rate.
Proof.
  unfold RADIO_MAX_PAYLOAD_SIZE. intros Hn.
  unfold radio_calculate_airtime. fold (bps_of data_rate). cbv zeta.
  rewrite (u32_small ((n + 16) * 8)) by lia.
  repeat split_if.
  - rewrite u32_small by lia. reflexivity.
  - rewrite (u32_small ((n + 16) * 8 * 9)) by lia.
    rewrite u32_small; [reflexivity|].
    assert (0 <= (n + 16) * 8 * 9 / 10 < 1887).
    { split; [apply Z.div_pos; lia | apply Z.div_lt_upper_bound; lia]. }
    lia.
  - rewrite (u32_small ((n + 16) * 8 * 3)) by lia.
    rewrite u32_small; [reflexivity|].
    assert (0 <= (n + 16) * 8 * 3 / 2 < 3145).
    { split; [apply Z.div_pos; lia | apply Z.div_lt_upper_bound; lia]. }
    lia.
  - rewrite (u32_small ((n + 16) * 8 * 2)) by lia.
    rewrite u32_small by lia. reflexivity.
  - rewrite u32_small by lia. reflexivity.
Qed.

(** C10 -- for a fixed data rate and modulation the airtime is
    non-decreasing in the payload size, up to the maximum payload. *)
Theorem airtime_monotone (data_rate : radio_data_rate_t)
  (modulation : radio_modulation_t) (a b : Z) :
  0 <= a -> a <= b -> b <= RADIO_MAX_PAYLOAD_SIZE ->
  radio_calculate_airtime a data_rate modulation
  <= radio_calculate_airtime b data_rate modulation.
Proof.
  intros Ha Hab Hb.
  rewrite !airtime_no_wrap by lia. cbv zeta.
  apply Z.div_le_mono; [apply bps_of_pos|].
  apply Z.mul_le_mono_nonneg_r; [lia|].
  repeat split_if; try lia; apply Z.div_le_mono; lia.
Qed.

Lemma airtime_monotone_witness :
  radio_calculate_airtime 32 RADIO_DATA_RATE_50K RADIO_MODULATION_GFSK
  <= radio_calculate_airtime 246 RADIO_DATA_RATE_50K RADIO_MODULATION_GFSK.
Proof.
  apply airtime_monotone.
  - vm_compute. discriminate.
  - vm_compute. discriminate.
  - vm_compute. discriminate.
Defined.

(** Beyond the maximum payload the product wraps and monotonicity is lost
    (the bound of C10 is needed). *)
Example airtime_wraps_past_limit :
  radio_calculate_airtime 255 RADIO_DATA_RATE_1K RADIO_MODULATION_OOK
  < radio_calculate_airtime 246 RADIO_DATA_RATE_1K RADIO_MODULATION_OOK.
Proof. vm_compute. reflexivity. Qed.

(** [radio_init] on a configuration that passes [validate_config]: the
    driver state it builds, whatever the machine held before. *)
Lemma init_valid (m : machine) (cfg : radio_config_t) :
  validate_config cfg = true ->
  let r := radio_init (Some cfg) m in
  fst r = RADIO_OK
  /\ initialized (g_radio (snd r)) = true
  /\ power_state (g_radio (snd r)) = RADIO_POWER_IDLE
  /\ config (g_radio (snd r)) = cfg
  /\ packets_sent (stats (g_radio (snd r))) = 0
  /\ total_airtime_ms (stats (g_radio (snd r))) = 0
  /\ next_tx_id (g_radio (snd r)) = 1
  /\ rx_buffer_count (g_radio (snd r)) = 0.
Proof.
  intros Hvalid. unfold radio_init. rewrite Hvalid. cbn [negb].
  repeat split.
Qed.

(** C7 -- for 32 bytes at 50 kbps with GFSK the driver returns the
    microsecond value of ((32+16)*8*0.9)/50000 s under its integer
    rounding, 6900: the bit count 384 * 9 / 10 is truncated to 345 before
    it is scaled, which is where the 12 microseconds to the real-valued
    6912 go.  In the scenario (channel 10, 3 retries, timeout 5000 ms,
    50 kbps, GFSK) init succeeds, and one send of a 32-byte payload leaves
    [packets_sent] at 1 and adds 6900 / 1000 = 6 ms of airtime. *)
Theorem scenario_airtime_and_send (m : machine) (cfg : radio_config_t)
  (p : radio_packet_t) :
  channel cfg = 10 ->
  max_retries cfg = 3 ->
  tx_timeout_ms cfg = 5000 ->
  data_rate cfg = RADIO_DATA_RATE_50K ->
  modulation cfg = RADIO_MODULATION_GFSK ->
  payload_size p = 32 ->
  let r1 := radio_init (Some cfg) m in
  let r2 := radio_send_packet (Some p) (snd r1) in
  radio_calculate_airtime 32 RADIO_DATA_RATE_50K RADIO_MODULATION_GFSK = 6900
  /\ fst r1 = RADIO_OK
  /\ (fst r2 = RADIO_OK \/ fst r2 = RADIO_ERROR_NO_ACK)
  /\ packets_sent (stats (g_radio (snd r2))) = 1
  /\ total_airtime_ms (stats (g_radio (snd r2))) = 6.
Proof.
  intros Hch Hre Hto Hdr Hmo Hsz r1 r2.
  assert (Hvalid : validate_config cfg = true).
  { unfold validate_config. rewrite Hch, Hre, Hto. reflexivity. }
  destruct (init_valid m cfg Hvalid)
    as (Hok & Hinit & Hpow & Hcfg & Hsent & Hair & _).
  fold r1 in Hok, Hinit, Hpow, Hcfg, Hsent, Hair.
  destruct (send_packet_effect (snd r1) p) as (Hr & _ & Hs & Ha).
  { exact Hinit. }
  { rewrite Hsz. vm_compute. discriminate. }
  { rewrite Hpow. vm_compute. discriminate. }
  fold r2 in Hr, Hs, Ha.
  rewrite Hsent in Hs. rewrite Hair, Hcfg, Hsz, Hdr, Hmo in Ha.
  repeat split; assumption.
Qed.

Lemma scenario_airtime_and_send_witness :
  let r1 := radio_init (Some example_config) (boot no_rand no_clock) in
  let r2 := radio_send_packet (Some (packet_of_size 32)) (snd r1) in
  radio_calculate_airtime 32 RADIO_DATA_RATE_50K RADIO_MODULATION_GFSK = 6900
  /\ fst r1 = RADIO_OK
  /\ (fst r2 = RADIO_OK \/ fst r2 = RADIO_ERROR_NO_ACK)
  /\ packets_sent (stats (g_radio (snd r2))) = 1
  /\ total_airtime_ms (stats (g_radio (snd r2))) = 6.
Proof.
  apply (scenario_airtime_and_send (boot no_rand no_clock) example_config
           (packet_of_size 32)); reflexivity.
Defined.

(** The rounding of the scenario's airtime: the real-valued formula gives
    6912 microseconds, the driver's integer arithmetic 12 less. *)
Example airtime_rounding_gap :
  (32 + 16) * 8 * 9 * 1000000 / (10 * 50000) = 6912
  /\ 6912 - radio_calculate_airtime 32 RADIO_DATA_RATE_50K
             RADIO_MODULATION_GFSK = 12.
Proof. vm_compute. split; reflexivity. Qed.

(** ** Receive pipeline *)

Section Maintains.
Variable P : radio_state_t -> Prop.

Lemma maintains_ret {A : Type} (a : A) : maintains P (ret a).
Proof. intros m H. exact H. Qed.

Lemma maintains_bind {A B : Type} (c : M A) (k : A -> M B) :
  maintains P c -> (forall a, maintains P (k a)) -> maintains P (bind c k).
Proof.
  intros Hc Hk m H. unfold bind. specialize (Hc m H).
  destruct (c m) as [a m1]. apply Hk. exact Hc.
Qed.

Lemma maintains_load : maintains P load.
Proof. intros m H. exact H. Qed.

Lemma maintains_rand : maintains P rand.
Proof. intros m H. exact H. Qed.

Lemma maintains_time : maintains P get_current_time_ms.
Proof. intros m H. exact H. Qed.

Lemma maintains_invoke (p : radio_packet_t) : maintains P (invoke_rx_callback p).
Proof. intros m H. exact H. Qed.

Lemma maintains_assign (f : radio_state_t -> radio_state_t) :
  (forall g, P g -> P (f g)) -> maintains P (assign f).
Proof. intros Hf m H. apply Hf. exact H. Qed.

Lemma maintains_rssi : maintains P simulate_rssi.
Proof. intros m H. exact H. Qed.

Lemma maintains_utilization : maintains P simulate_channel_utilization.
Proof. intros m H. exact H. Qed.

Lemma maintains_fill_addresses (n i : nat) (d : list Z) (p : radio_packet_t) :
  maintains P (fill_addresses n i d p).
Proof.
  revert i p. induction n as [|n IH]; intros i p; cbn [fill_addresses].
  - apply maintains_ret.
  - apply maintains_bind; [apply maintains_rand | intros r; apply IH].
Qed.

Lemma maintains_fill_payload (n i : nat) (bytes : list Z) :
  maintains P (fill_payload n i bytes).
Proof.
  revert i bytes. induction n as [|n IH]; intros i bytes; cbn [fill_payload].
  - apply maintains_ret.
  - apply maintains_bind; [apply maintains_rand | intros r; apply IH].
Qed.

Lemma maintains_scan_entries (n : nat) (i : Z) : maintains P (scan_entries n i).
Proof.
  revert i. induction n as [|n IH]; intros i; cbn [scan_entries].
  - apply maintains_ret.
  - repeat (apply maintains_bind; intros;
            try apply maintains_rand; try apply maintains_rssi;
            try apply IH; try apply maintains_ret).
Qed.

End Maintains.

Ltac maintain_step :=
  match goal with
  | |- maintains _ (ret _) => apply maintains_ret
  | |- maintains _ load => apply maintains_load
  | |- maintains _ rand => apply maintains_rand
  | |- maintains _ get_current_time_ms => apply maintains_time
  | |- maintains _ simulate_rssi => apply maintains_rssi
  | |- maintains _ simulate_channel_utilization => apply maintains_utilization
  | |- maintains _ (invoke_rx_callback _) => apply maintains_invoke
  | |- maintains _ (scan_entries _ _) => apply maintains_scan_entries
  | |- maintains _ (fill_addresses _ _ _ _) => apply maintains_fill_addresses
  | |- maintains _ (fill_payload _ _ _) => apply maintains_fill_payload
  | |- maintains _ (bind _ _) => apply maintains_bind; [|intros ?]
  | |- maintains _ (if ?b then _ else _) => destruct b
  | |- maintains _ (match ?x with Some _ => _ | None => _ end) => destruct x
  | |- maintains _ (let _ := _ in _) => cbv zeta
  end.

(** Assignments to members other than the buffer count and indices. *)
Ltac maintain_rx :=
  repeat first
    [ maintain_step
    | match goal with
      | |- maintains rx_consistent (assign _) =>
        apply maintains_assign; intros ? H; exact H
      end ].

Lemma simulate_packet_reception_radio (m : machine) :
  let g := g_radio m in
  let g' := g_radio (snd (simulate_packet_reception m)) in
  if arrival_due m && (rx_buffer_count g <? 32)
  then exists packet, g' = enqueued g packet
  else g' = g.
Proof.
  intros g g'. subst g'. unfold arrival_due, simulate_packet_reception.
  unfold bind, load, ret, rand, assign, get_current_time_ms, invoke_rx_callback.
  cbn -[fill_addresses fill_payload Z.rem u8 u16 u32 nth array_set Z.to_nat
        Z.ltb Z.eqb].
  fold g.
  destruct (negb (power_state g =? RADIO_POWER_RX)
            && negb (power_state g =? RADIO_POWER_IDLE));
    [reflexivity|].
  cbn beta.
  destruct (Z.rem (Z.of_N (rand_src m (rand_calls m))) 100 <? 5);
    [|reflexivity].
  destruct (rx_buffer_count g <? 32); [|reflexivity].
  cbn [negb andb].
  match goal with
  | |- context [fill_addresses ?n ?i ?d ?p ?m1] =>
    pose proof (maintains_fill_addresses (fun x => x = g) n i d p m1 eq_refl)
      as H1;
    destruct (fill_addresses n i d p m1) as [a m1']
  end.
  cbn [snd] in H1.
  match goal with
  | |- context [fill_payload ?n ?i ?b ?m2] =>
    pose proof (maintains_fill_payload (fun x => x = g) n i b m2 H1) as H2;
    destruct (fill_payload n i b m2) as [bytes m2']
  end.
  cbn [snd] in H2. rewrite H2.
  destruct (negb (rx_callback g =? NULL)); cbn [snd g_radio];
    eexists; reflexivity.
Qed.

Lemma rx_consistent_zero : rx_consistent radio_state_zero.
Proof. unfold rx_consistent. cbn. lia. Qed.

Lemma rx_consistent_enqueued (g : radio_state_t) (packet : radio_packet_t) :
  rx_consistent g -> rx_buffer_count g < 32 ->
  rx_consistent (enqueued g packet).
Proof.
  unfold rx_consistent, enqueued. cbn [rx_buffer_count rx_buffer_head
    rx_buffer_tail on_stats set_stats set_rx_buffer_count set_rx_buffer_head
    set_rx_buffer].
  unfold u8. intros H Hroom.
  Z.to_euclidean_division_equations. lia.
Qed.

Lemma rx_consistent_dequeued (g : radio_state_t) :
  rx_consistent g -> rx_buffer_count g > 0 -> rx_consistent (dequeued g).
Proof.
  unfold rx_consistent, dequeued. cbn [rx_buffer_count rx_buffer_head
    rx_buffer_tail set_rx_buffer_count set_rx_buffer_tail].
  unfold u8. intros H Hsome.
  Z.to_euclidean_division_equations. lia.
Qed.

Lemma maintains_simulate_packet_reception :
  maintains rx_consistent simulate_packet_reception.
Proof.
  intros m H. pose proof (simulate_packet_reception_radio m) as E.
  cbv zeta in E.
  destruct (arrival_due m); cbn [andb] in E.
  - destruct (Z.ltb_spec (rx_buffer_count (g_radio m)) 32) as [Hroom|].
    + destruct E as [packet E]. rewrite E.
      apply rx_consistent_enqueued; assumption.
    + rewrite E. exact H.
  - rewrite E. exact H.
Qed.

(** The test-and-dequeue that ends both attempts of
    [radio_receive_packet]. *)
Lemma maintains_take (k : M (radio_error_t * option radio_packet_t)) :
  maintains rx_consistent k ->
  maintains rx_consistent
    (g <- load ;;
     if rx_buffer_count g >? 0 then p <- dequeue ;; ret (RADIO_OK, Some p)
     else k).
Proof.
  intros Hk m H. unfold bind at 1. unfold load.
  destruct (Z.gtb_spec (rx_buffer_count (g_radio m)) 0) as [Hsome|].
  - change (rx_consistent (dequeued (g_radio m))).
    apply rx_consistent_dequeued; [exact H | lia].
  - apply Hk. exact H.
Qed.

Lemma maintains_receive_packet (packet : bool) (timeout_ms : Z) :
  maintains rx_consistent (radio_receive_packet packet timeout_ms).
Proof.
  unfold radio_receive_packet.
  apply maintains_bind; [apply maintains_load | intros g].
  do 3 maintain_step; try apply maintains_ret.
  apply maintains_bind;
    [apply maintains_simulate_packet_reception | intros _].
  apply maintains_take.
  do 2 maintain_step; try apply maintains_ret.
  apply maintains_bind;
    [apply maintains_simulate_packet_reception | intros _].
  apply maintains_take. apply maintains_ret.
Qed.

Lemma maintains_init (config : option radio_config_t) :
  maintains rx_consistent (radio_init config).
Proof.
  unfold radio_init. destruct config as [cfg|]; [|apply maintains_ret].
  destruct (validate_config cfg); cbn [negb]; [|apply maintains_ret].
  apply maintains_bind.
  - apply maintains_assign. intros g _. apply rx_consistent_zero.
  - intros _. maintain_rx.
Qed.

(** Every step of a run keeps the receive-buffer bookkeeping consistent. *)
Lemma exec_rx_consistent (c : radio_call) (m : machine) :
  rx_consistent (g_radio m) -> rx_consistent (g_radio (exec c m)).
Proof.
  revert m. change (maintains rx_consistent (fun m => (tt, exec c m))).
  assert (lift : forall (A : Type) (k : M A),
             maintains rx_consistent k ->
             maintains rx_consistent (fun m => (tt, snd (k m)))).
  { intros A k Hk m H. apply Hk. exact H. }
  destruct c; cbn [exec]; apply lift.
  - apply maintains_init.
  - unfold radio_configure. maintain_rx.
  - unfold radio_set_power_state. maintain_rx.
  - unfold radio_get_power_state. maintain_rx.
  - unfold radio_send_packet. maintain_rx.
  - unfold radio_send_packet_async. maintain_rx.
  - unfold radio_get_tx_status. maintain_rx.
  - apply maintains_receive_packet.
  - unfold radio_set_rx_callback. maintain_rx.
  - unfold radio_set_event_callback. maintain_rx.
  - unfold radio_scan_networks. maintain_rx.
  - unfold radio_join_network. maintain_rx.
  - unfold radio_leave_network. maintain_rx.
  - unfold radio_get_network_info. maintain_rx.
  - unfold radio_measure_rssi. maintain_rx.
  - unfold radio_get_channel_utilization. maintain_rx.
  - unfold radio_get_statistics. maintain_rx.
  - unfold radio_reset_statistics. maintain_rx.
  - unfold radio_self_test. maintain_rx.
  - unfold radio_get_firmware_version. maintain_rx.
  - unfold radio_deinit. maintain_rx.
  - apply maintains_simulate_packet_reception.
Qed.

Lemma reachable_rx_consistent (m : machine) :
  reachable m -> rx_consistent (g_radio m).
Proof.
  induction 1 as [rs cs | m c _ IH].
  - apply rx_consistent_zero.
  - apply exec_rx_consistent. exact IH.
Qed.

Lemma reachable_run (calls : list radio_call) (m : machine) :
  reachable m -> reachable (run calls m).
Proof.
  revert m. induction calls as [|c calls IH]; intros m H; cbn [run fold_left].
  - exact H.
  - apply IH. apply reachable_step. exact H.
Qed.

(** C3 (as amended) -- in every reachable state the count lies between 0
    and 32 and is congruent to head - tail modulo 32: it equals
    (head - tail) mod 32 while fewer than 32 packets are buffered, and with
    32 buffered head equals tail; an arrival injection that finds 32
    packets buffered leaves the driver state, hence the count and
    [packets_received], as it was. *)
Theorem rx_buffer_bookkeeping (m : machine) :
  reachable m ->
  let g := g_radio m in
  0 <= rx_buffer_count g <= 32
  /\ (rx_buffer_head g - rx_buffer_tail g) mod 32 = rx_buffer_count g mod 32
  /\ (rx_buffer_count g < 32 ->
      rx_buffer_count g = (rx_buffer_head g - rx_buffer_tail g) mod 32)
  /\ (rx_buffer_count g = 32 ->
      rx_buffer_head g = rx_buffer_tail g
      /\ g_radio (snd (simulate_packet_reception m)) = g).
Proof.
  intros Hreach g. pose proof (reachable_rx_consistent m Hreach) as H.
  fold g in H. destruct H as (Hc & Hh & Ht & Hmod).
  split; [exact Hc|]. split; [exact Hmod|]. split.
  - intros Hroom. rewrite Hmod. symmetry. apply Z.mod_small. lia.
  - intros Hfull. split.
    + rewrite Hfull in Hmod. Z.to_euclidean_division_equations. lia.
    + pose proof (simulate_packet_reception_radio m) as E. cbv zeta in E.
      fold g in E. rewrite Hfull in E. change (32 <? 32) with false in E.
      rewrite andb_false_r in E. exact E.
Qed.

Lemma rx_buffer_bookkeeping_witness :
  let m := full_buffer_machine in
  let g := g_radio m in
  0 <= rx_buffer_count g <= 32
  /\ (rx_buffer_head g - rx_buffer_tail g) mod 32 = rx_buffer_count g mod 32
  /\ (rx_buffer_count g < 32 ->
      rx_buffer_count g = (rx_buffer_head g - rx_buffer_tail g) mod 32)
  /\ (rx_buffer_count g = 32 ->
      rx_buffer_head g = rx_buffer_tail g
      /\ g_radio (snd (simulate_packet_reception m)) = g).
Proof.
  apply (rx_buffer_bookkeeping full_buffer_machine).
  apply reachable_run, reachable_boot.
Defined.

(** C3, as stated, fails on a full buffer: after init and 32 arrivals the
    count is 32 while (head - tail) mod 32 is 0. *)
Lemma rx_count_differs_when_full :
  let g := g_radio full_buffer_machine in
  reachable full_buffer_machine
  /\ rx_buffer_count g = 32
  /\ packets_received (stats g) = 32
  /\ (rx_buffer_head g - rx_buffer_tail g) mod 32 = 0
  /\ rx_buffer_count g <> (rx_buffer_head g - rx_buffer_tail g) mod 32.
Proof.
  split; [apply reachable_run, reachable_boot|].
  vm_compute. repeat split. discriminate.
Qed.

Lemma rem_nonneg_bounds (r d : Z) : 0 <= r -> 0 < d -> 0 <= Z.rem r d < d.
Proof. intros Hr Hd. rewrite Z.rem_mod_nonneg by lia. apply Z.mod_pos_bound. lia. Qed.

Lemma u8_rem_range (r d k : Z) :
  0 <= r -> 0 < d -> 0 <= k -> k + d <= 256 ->
  k <= u8 (Z.rem r d + k) < k + d.
Proof.
  intros Hr Hd Hk Hfit. pose proof (rem_nonneg_bounds r d Hr Hd) as Hv.
  unfold u8. rewrite Z.mod_small by lia. lia.
Qed.

Lemma fill_addresses_only_draws (n i : nat) (d : list Z) (p : radio_packet_t)
  (m : machine) :
  only_draws m (snd (fill_addresses n i d p m)).
Proof.
  revert i p m. induction n as [|n IH]; intros i p m; cbn [fill_addresses].
  - repeat split.
  - unfold bind, rand.
    match goal with
    | |- only_draws _ (snd (fill_addresses n ?j ?d ?q ?m1)) =>
      destruct (IH j q m1) as (H1 & H2 & H3 & H4 & H5)
    end.
    repeat split; assumption.
Qed.

Lemma fill_payload_only_draws (n i : nat) (bytes : list Z) (m : machine) :
  only_draws m (snd (fill_payload n i bytes m)).
Proof.
  revert i bytes m. induction n as [|n IH]; intros i bytes m;
    cbn [fill_payload].
  - repeat split.
  - unfold bind, rand.
    match goal with
    | |- only_draws _ (snd (fill_payload n ?j ?b ?m1)) =>
      destruct (IH j b m1) as (H1 & H2 & H3 & H4 & H5)
    end.
    repeat split; assumption.
Qed.

(** What one call of [simulate_packet_reception] does: either nothing to
    the driver state and the callback log, or one generated packet stored
    at the head and handed to the registered callback. *)
Lemma simulate_packet_reception_full (m : machine) :
  let g := g_radio m in
  let m' := snd (simulate_packet_reception m) in
  if arrival_due m && (rx_buffer_count g <? 32)
  then exists p,
      g_radio m' = enqueued g p
      /\ 1 <= payload_size p <= 100
      /\ priority p = RADIO_PRIORITY_NORMAL
      /\ require_ack p = false
      /\ retry_count p = 0
      /\ rx_callback_log m'
         = if rx_callback g =? NULL then rx_callback_log m
           else (rx_callback g, p, rx_user_data g) :: rx_callback_log m
  else g_radio m' = g /\ rx_callback_log m' = rx_callback_log m.
Proof.
  intros g m'. subst m'. unfold arrival_due, simulate_packet_reception.
  unfold bind, load, ret, rand, assign, get_current_time_ms, invoke_rx_callback.
  cbn -[fill_addresses fill_payload Z.rem u8 u16 u32 nth array_set Z.to_nat
        Z.ltb Z.eqb].
  fold g.
  destruct (negb (power_state g =? RADIO_POWER_RX)
            && negb (power_state g =? RADIO_POWER_IDLE));
    [split; reflexivity|].
  cbn beta.
  destruct (Z.rem (Z.of_N (rand_src m (rand_calls m))) 100 <? 5);
    [|split; reflexivity].
  destruct (rx_buffer_count g <? 32); [|split; reflexivity].
  cbn [negb andb].
  match goal with
  | |- context [fill_addresses ?n ?i ?d ?p ?m1] =>
    destruct (fill_addresses_only_draws n i d p m1) as (A1 & _ & _ & _ & A5);
    destruct (fill_addresses n i d p m1) as [a m1']
  end.
  cbn [snd g_radio rx_callback_log] in A1, A5.
  match goal with
  | |- context [fill_payload ?n ?i ?b ?m2] =>
    destruct (fill_payload_only_draws n i b m2) as (B1 & _ & _ & _ & B5);
    destruct (fill_payload n i b m2) as [bytes m2']
  end.
  cbn [snd g_radio rx_callback_log] in B1, B5.
  rewrite B1, A1 in *. fold g.
  assert (Hsize : 1 <= u8 (Z.rem (Z.of_N (rand_src m1' (S (rand_calls m1'))))
                            100 + 1) <= 100).
  { pose proof (u8_rem_range (Z.of_N (rand_src m1' (S (rand_calls m1')))) 100 1
                  (N2Z.is_nonneg _)). lia. }
  eexists. split.
  { destruct (negb (rx_callback g =? NULL)); reflexivity. }
  split; [exact Hsize|].
  split; [reflexivity|]. split; [reflexivity|]. split; [reflexivity|].
  destruct (rx_callback g =? NULL); cbn [negb snd rx_callback_log g_radio
    rx_callback rx_user_data on_stats set_stats set_rx_buffer_count
    set_rx_buffer_head set_rx_buffer].
  - rewrite B5, A5. reflexivity.
  - rewrite B5, A5. reflexivity.
Qed.





(** ** The sent counter wraps within a run *)

Lemma send_async_effect (m : machine) (p : radio_packet_t) :
  initialized (g_radio m) = true ->
  payload_size p <= RADIO_MAX_PAYLOAD_SIZE ->
  power_state (g_radio m) <> RADIO_POWER_OFF ->
  let r := radio_send_packet_async (Some p) true m in
  let g := g_radio m in
  let g' := g_radio (snd r) in
  fst r = (RADIO_OK, Some (next_tx_id g))
  /\ initialized g' = true
  /\ power_state g' = power_state g
  /\ packets_sent (stats g') = u32 (packets_sent (stats g) + 1)
  /\ next_tx_id g' = u16 (next_tx_id g + 1).
Proof.
  intros Hinit Hsize Hpow. unfold radio_send_packet_async. step_monad.
  rewrite Hinit. cbn.
  destruct (Z.gtb_spec (payload_size p) RADIO_MAX_PAYLOAD_SIZE); [lia|].
  destruct (Z.eqb_spec (power_state (g_radio m)) RADIO_POWER_OFF);
    [contradiction|].
  cbn. repeat split. exact Hinit.
Qed.

Lemma async_sends_reachable (n : nat) (m : machine) :
  reachable m -> reachable (async_sends n m).
Proof.
  intros H. unfold async_sends. induction n as [|n IH]; cbn [Nat.iter].
  - exact H.
  - apply reachable_step. exact IH.
Qed.

Lemma async_sends_count (n : nat) (m : machine) :
  initialized (g_radio m) = true ->
  power_state (g_radio m) = RADIO_POWER_IDLE ->
  packets_sent (stats (g_radio m)) = 0 ->
  let m' := async_sends n m in
  initialized (g_radio m') = true
  /\ power_state (g_radio m') = RADIO_POWER_IDLE
  /\ packets_sent (stats (g_radio m')) = u32 (Z.of_nat n).
Proof.
  intros Hinit Hidle Hzero. unfold async_sends.
  induction n as [|n (IHi & IHp & IHs)]; cbn [Nat.iter].
  - repeat split; assumption.
  - set (m1 := Nat.iter n
        (exec (Call_send_packet_async (Some (packet_of_size 32)) true)) m)
      in *.
    destruct (send_async_effect m1 (packet_of_size 32))
      as (_ & Hi & Hp & Hs & _).
    { exact IHi. }
    { vm_compute. discriminate. }
    { rewrite IHp. vm_compute. discriminate. }
    repeat split.
    + exact Hi.
    + exact (eq_trans Hp IHp).
    + etransitivity; [exact Hs|]. rewrite IHs. unfold u32.
      rewrite Nat2Z.inj_succ. unfold Z.succ.
      apply Z.add_mod_idemp_l. lia.
Qed.

Lemma saturated_after (n : nat) :
  Z.of_nat n = 4294967295 ->
  exists m,
    reachable m
    /\ initialized (g_radio m) = true
    /\ power_state (g_radio m) = RADIO_POWER_IDLE
    /\ packets_sent (stats (g_radio m)) = 4294967295
    /\ packets_sent
         (stats (g_radio (snd (radio_send_packet (Some (packet_of_size 32)) m))))
       = 0.
Proof.
  intros Hn.
  set (m0 := run [Call_init (Some example_config)] (boot no_rand no_clock)).
  exists (async_sends n m0).
  destruct (async_sends_count n m0) as (Hi & Hp & Hs); try reflexivity.
  rewrite Hn in Hs. change (u32 4294967295) with 4294967295 in Hs.
  split.
  { apply async_sends_reachable, reachable_run, reachable_boot. }
  repeat split; try assumption.
  destruct (send_packet_effect (async_sends n m0) (packet_of_size 32))
    as (_ & _ & Hsent & _).
  { exact Hi. }
  { vm_compute. discriminate. }
  { rewrite Hp. vm_compute. discriminate. }
  rewrite Hsent, Hs. reflexivity.
Qed.

(** The state in which C1 fails is reached by init followed by 2^32 - 1
    asynchronous sends. *)
Lemma saturated_counter_reachable :
  exists m,
    reachable m
    /\ initialized (g_radio m) = true
    /\ power_state (g_radio m) = RADIO_POWER_IDLE
    /\ packets_sent (stats (g_radio m)) = 4294967295
    /\ packets_sent
         (stats (g_radio (snd (radio_send_packet (Some (packet_of_size 32)) m))))
       = 0.
Proof.
  apply (saturated_after (Z.to_nat 4294967295)).
  apply Z2Nat.id. lia.
Qed.

(** ** Diagnostics *)

Example firmware_version_truncated :
  fst (radio_get_firmware_version true 8 (example_machine 0))
  = (RADIO_OK, Some "v2.1.4-"%string).
Proof. reflexivity. Qed.

(** * Further properties of the driver *)

(** ** Lifecycle guards *)

Ltac unfold_api :=
  unfold radio_configure, radio_set_power_state, radio_get_power_state,
    radio_send_packet, radio_send_packet_async, radio_get_tx_status,
    radio_receive_packet, radio_set_rx_callback, radio_set_event_callback,
    radio_scan_networks, radio_join_network, radio_leave_network,
    radio_get_network_info, radio_measure_rssi,
    radio_get_channel_utilization, radio_get_statistics,
    radio_reset_statistics, radio_self_test, radio_get_firmware_version,
    radio_deinit.

Lemma bind_load {A : Type} (k : radio_state_t -> M A) (m : machine) :
  bind load k m = k (g_radio m) m.
Proof. reflexivity. Qed.

(** X1 -- before [radio_init] (or after [radio_deinit]) every API call
    other than [radio_init] returns RADIO_ERROR_INIT and leaves the machine
    exactly as it was. *)
Theorem uninitialized_calls_rejected (c : radio_call) (m : machine) :
  initialized (g_radio m) = false ->
  needs_init c = true ->
  status_of c m = Some RADIO_ERROR_INIT /\ exec c m = m.
Proof.
  intros Hinit Hc.
  destruct c; try discriminate Hc; cbn [status_of exec];
    unfold_api; rewrite bind_load, Hinit; split; reflexivity.
Qed.

Lemma uninitialized_calls_rejected_witness :
  status_of (Call_send_packet (Some (packet_of_size 32))) cold_machine
  = Some RADIO_ERROR_INIT
  /\ exec (Call_send_packet (Some (packet_of_size 32))) cold_machine
     = cold_machine.
Proof.
  apply uninitialized_calls_rejected; reflexivity.
Defined.

Lemma draw_nonneg (m : machine) (k : nat) : 0 <= draw m k.
Proof. unfold draw. apply N2Z.is_nonneg. Qed.

(** The clamps of [simulate_rssi] never fire: a sample lies within ten of
    the nominal -70 dBm. *)
Lemma rssi_sample_range (r : Z) : 0 <= r -> -80 <= rssi_sample r <= -61.
Proof.
  intros Hr. pose proof (rem_nonneg_bounds r 20 Hr ltac:(lia)) as Hv.
  unfold rssi_sample, i8, RADIO_RSSI_MIN, RADIO_RSSI_MAX. cbv zeta.
  set (v := Z.rem r 20) in *.
  replace ((-70 + (v - 10) + 128) mod 256 - 128) with (v - 80).
  2:{ rewrite Z.mod_small by lia. lia. }
  destruct (Z.ltb_spec (v - 80) (-120)); [lia|].
  destruct (Z.gtb_spec (v - 80) (-30)); lia.
Qed.

Lemma simulate_rssi_run (m : machine) :
  simulate_rssi m
  = (rssi_sample (draw m 0),
     mk_machine (g_radio m) (rand_src m) (S (rand_calls m))
       (clock_src m) (clock_calls m) (rx_callback_log m)).
Proof. unfold draw. rewrite Nat.add_0_r. reflexivity. Qed.

(** X2 -- [radio_init] turns away a null configuration with INVALID_PARAM
    and a configuration with channel >= 125, more than 5 retries or a zero
    timeout with a Configuration error; in both cases the machine is left
    as it was (a driver that was initialized keeps running on its old
    configuration). *)
Theorem init_rejects_bad_config (m : machine) (cfg : radio_config_t) :
  channel cfg >= RADIO_MAX_CHANNELS
  \/ max_retries cfg > RADIO_MAX_RETRIES
  \/ tx_timeout_ms cfg = 0 ->
  radio_init (Some cfg) m = (RADIO_ERROR_CONFIG, m)
  /\ radio_init None m = (RADIO_ERROR_INVALID_PARAM, m).
Proof.
  intros Hbad. split; [|reflexivity].
  assert (Hv : validate_config cfg = false).
  { unfold validate_config.
    destruct (Z.geb_spec (channel cfg) RADIO_MAX_CHANNELS); [reflexivity|].
    destruct (Z.gtb_spec (max_retries cfg) RADIO_MAX_RETRIES); [reflexivity|].
    destruct (Z.eqb_spec (tx_timeout_ms cfg) 0); [reflexivity|]. lia. }
  unfold radio_init. rewrite Hv. reflexivity.
Qed.

Lemma init_rejects_bad_config_witness :
  radio_init (Some config_zero) (example_machine 0)
  = (RADIO_ERROR_CONFIG, example_machine 0)
  /\ radio_init None (example_machine 0)
     = (RADIO_ERROR_INVALID_PARAM, example_machine 0).
Proof.
  apply init_rejects_bad_config. right. right. reflexivity.
Defined.

(** X3 -- [radio_init] with a configuration that passes validation
    succeeds from any prior state and rebuilds the whole driver state:
    Idle, not connected, hop count 255, next transaction id 1, empty
    buffer, zeroed counters, no callbacks, the configuration stored, and
    two RSSI samples in -80..-61; it reads the clock once and draws twice. *)
Theorem init_builds_fresh_state (m : machine) (cfg : radio_config_t) :
  channel cfg < RADIO_MAX_CHANNELS ->
  max_retries cfg <= RADIO_MAX_RETRIES ->
  tx_timeout_ms cfg <> 0 ->
  let r := radio_init (Some cfg) m in
  let rssi_link := rssi_sample (draw m 0) in
  let rssi_stats := rssi_sample (draw m 1) in
  fst r = RADIO_OK
  /\ g_radio (snd r) = fresh_state cfg (clock_now m) rssi_link rssi_stats
  /\ -80 <= rssi_link <= -61
  /\ -80 <= rssi_stats <= -61
  /\ rand_calls (snd r) = (rand_calls m + 2)%nat
  /\ clock_calls (snd r) = (clock_calls m + 1)%nat.
Proof.
  intros Hch Hre Hto r rssi_link rssi_stats.
  assert (Hv : validate_config cfg = true).
  { unfold validate_config.
    destruct (Z.geb_spec (channel cfg) RADIO_MAX_CHANNELS); [lia|].
    destruct (Z.gtb_spec (max_retries cfg) RADIO_MAX_RETRIES); [lia|].
    destruct (Z.eqb_spec (tx_timeout_ms cfg) 0); [contradiction|].
    reflexivity. }
  subst r rssi_link rssi_stats. unfold radio_init. rewrite Hv. cbn [negb].
  split; [reflexivity|]. split.
  { unfold draw. rewrite Nat.add_0_r, Nat.add_1_r. reflexivity. }
  split; [apply rssi_sample_range, draw_nonneg|].
  split; [apply rssi_sample_range, draw_nonneg|].
  split.
  - rewrite Nat.add_comm. reflexivity.
  - rewrite Nat.add_comm. reflexivity.
Qed.

Lemma init_builds_fresh_state_witness :
  let m := saturated_machine in
  let r := radio_init (Some example_config) m in
  fst r = RADIO_OK
  /\ g_radio (snd r) = fresh_state example_config 0 (-70) (-70).
Proof.
  destruct (init_builds_fresh_state saturated_machine example_config)
    as (H1 & H2 & _).
  - vm_compute. reflexivity.
  - vm_compute. discriminate.
  - vm_compute. discriminate.
  - split; [exact H1 | exact H2].
Defined.

(** X4 -- on an initialized driver [radio_configure] replaces the stored
    configuration, and nothing else, exactly when the new configuration
    passes validation and the power state is Idle; otherwise it fails with
    a Configuration error and the machine is unchanged. *)
Theorem configure_only_in_idle (m : machine) (cfg : radio_config_t) :
  initialized (g_radio m) = true ->
  let r := radio_configure (Some cfg) m in
  (validate_config cfg = true /\ power_state (g_radio m) = RADIO_POWER_IDLE ->
     fst r = RADIO_OK
     /\ g_radio (snd r) = set_config cfg (g_radio m)
     /\ config (g_radio (snd r)) = cfg)
  /\ (validate_config cfg = false \/ power_state (g_radio m) <> RADIO_POWER_IDLE ->
     fst r = RADIO_ERROR_CONFIG /\ snd r = m).
Proof.
  intros Hinit r. subst r. unfold radio_configure.
  rewrite bind_load, Hinit. cbn [negb].
  destruct (validate_config cfg); cbn [negb].
  - destruct (Z.eqb_spec (power_state (g_radio m)) RADIO_POWER_IDLE);
      cbn [negb]; split.
    + intros _. repeat split.
    + intros [H | H]; [discriminate H | contradiction].
    + intros [_ H]. contradiction.
    + intros _. split; reflexivity.
  - split.
    + intros [H _]. discriminate H.
    + intros _. split; reflexivity.
Qed.

Lemma configure_only_in_idle_witness :
  let r := radio_configure (Some example_config) powered_off_machine in
  fst r = RADIO_ERROR_CONFIG /\ snd r = powered_off_machine.
Proof.
  destruct (configure_only_in_idle powered_off_machine example_config)
    as [_ H].
  - reflexivity.
  - apply H. right. vm_compute. discriminate.
Defined.

(** ** Telemetry *)

(** X5 -- [radio_measure_rssi] on an initialized, powered radio succeeds
    with a sample between -80 and -61 dBm, hence inside the device range
    RADIO_RSSI_MIN..RADIO_RSSI_MAX, and records that sample as [last_rssi],
    touching nothing else in the driver state. *)
Theorem measure_rssi_in_range (m : machine) :
  initialized (g_radio m) = true ->
  power_state (g_radio m) <> RADIO_POWER_OFF ->
  let r := radio_measure_rssi true m in
  let v := rssi_sample (draw m 0) in
  fst r = (RADIO_OK, Some v)
  /\ -80 <= v <= -61
  /\ RADIO_RSSI_MIN <= v <= RADIO_RSSI_MAX
  /\ g_radio (snd r) = on_stats (set_last_rssi v) (g_radio m).
Proof.
  intros Hinit Hpow r v. subst r.
  pose proof (rssi_sample_range (draw m 0) (draw_nonneg m 0)) as Hv.
  fold v in Hv. unfold radio_measure_rssi.
  rewrite bind_load, Hinit. cbn [negb].
  destruct (Z.eqb_spec (power_state (g_radio m)) RADIO_POWER_OFF);
    [contradiction|].
  unfold bind. rewrite simulate_rssi_run. fold v.
  unfold RADIO_RSSI_MIN, RADIO_RSSI_MAX. repeat split; lia.
Qed.

Lemma measure_rssi_in_range_witness :
  let m := example_machine 7 in
  let r := radio_measure_rssi true m in
  fst r = (RADIO_OK, Some (-73))
  /\ g_radio (snd r) = on_stats (set_last_rssi (-73)) (g_radio m).
Proof.
  destruct (measure_rssi_in_range (example_machine 7)) as (H1 & _ & _ & H2).
  - reflexivity.
  - vm_compute. discriminate.
  - split; [exact H1 | exact H2].
Defined.

(** X6 -- [radio_get_channel_utilization] on an initialized, powered radio
    succeeds with a percentage between 10 and 39 and records it as
    [channel_utilization], touching nothing else in the driver state. *)
Theorem channel_utilization_in_range (m : machine) :
  initialized (g_radio m) = true ->
  power_state (g_radio m) <> RADIO_POWER_OFF ->
  let r := radio_get_channel_utilization true m in
  let v := Z.rem (draw m 0) 30 + 10 in
  fst r = (RADIO_OK, Some v)
  /\ 10 <= v <= 39
  /\ g_radio (snd r) = on_stats (set_channel_utilization v) (g_radio m).
Proof.
  intros Hinit Hpow r v. subst r.
  pose proof (rem_nonneg_bounds (draw m 0) 30 (draw_nonneg m 0) ltac:(lia))
    as Hv.
  assert (Hu : u8 v = v) by (unfold u8; apply Z.mod_small; subst v; lia).
  assert (Hrun : simulate_channel_utilization m
                 = (v, mk_machine (g_radio m) (rand_src m) (S (rand_calls m))
                         (clock_src m) (clock_calls m) (rx_callback_log m))).
  { rewrite <- Hu. subst v. unfold draw. rewrite Nat.add_0_r. reflexivity. }
  unfold radio_get_channel_utilization.
  rewrite bind_load, Hinit. cbn [negb].
  destruct (Z.eqb_spec (power_state (g_radio m)) RADIO_POWER_OFF);
    [contradiction|].
  unfold bind. rewrite Hrun.
  repeat split; lia.
Qed.

Lemma channel_utilization_in_range_witness :
  let m := example_machine 7 in
  let r := radio_get_channel_utilization true m in
  fst r = (RADIO_OK, Some 17)
  /\ g_radio (snd r) = on_stats (set_channel_utilization 17) (g_radio m).
Proof.
  destruct (channel_utilization_in_range (example_machine 7))
    as (H1 & _ & H2).
  - reflexivity.
  - vm_compute. discriminate.
  - split; [exact H1 | exact H2].
Defined.

Lemma current_ma_of_range (p : radio_power_state_t) : 0 <= current_ma_of p <= 50.
Proof. unfold current_ma_of. repeat split_if; lia. Qed.

(** X7 -- for durations up to 85899 ms no 32-bit intermediate of
    [radio_estimate_power_consumption] wraps: the estimate is the state's
    current (0, 1, 5, 10, 20 or 50 mA) times the duration, divided by 3600
    and rounded down, and it is non-decreasing in the duration. *)
Theorem power_estimate_formula (p : radio_power_state_t) (d1 d2 : Z) :
  0 <= d1 -> d1 <= d2 -> d2 <= 85899 ->
  radio_estimate_power_consumption p d2 = current_ma_of p * d2 / 3600
  /\ radio_estimate_power_consumption p d1
     <= radio_estimate_power_consumption p d2.
Proof.
  intros H1 H12 H2. pose proof (current_ma_of_range p) as Hc.
  assert (F : forall d, 0 <= d <= 85899 ->
            radio_estimate_power_consumption p d = current_ma_of p * d / 3600).
  { intros d Hd. unfold radio_estimate_power_consumption.
    fold (current_ma_of p). cbv zeta.
    rewrite (u32_small (current_ma_of p * 1000)) by lia.
    rewrite u32_small by nia.
    replace (current_ma_of p * 1000 * d) with (1000 * (current_ma_of p * d))
      by ring.
    change 3600000 with (1000 * 3600).
    apply Z.div_mul_cancel_l; lia. }
  split; [apply F; lia|].
  rewrite !F by lia. apply Z.div_le_mono; [lia | nia].
Qed.

Lemma power_estimate_formula_witness :
  radio_estimate_power_consumption RADIO_POWER_TX 7200 = 50 * 7200 / 3600
  /\ radio_estimate_power_consumption RADIO_POWER_TX 3600
     <= radio_estimate_power_consumption RADIO_POWER_TX 7200.
Proof.
  apply (power_estimate_formula RADIO_POWER_TX 3600 7200);
    vm_compute; discriminate.
Defined.

(** One millisecond further the product wraps (the bound of X7 is sharp
    for the transmit current). *)
Example power_estimate_wraps :
  radio_estimate_power_consumption RADIO_POWER_TX 85900
  < radio_estimate_power_consumption RADIO_POWER_TX 85899.
Proof. vm_compute. reflexivity. Qed.

(** ** Network manager *)

(** Runs the monadic plumbing of a driver function on a machine, leaving
    arithmetic and the member assignments folded. *)
Ltac run_monad :=
  cbv [bind ret load assign rand get_current_time_ms invoke_rx_callback
       simulate_rssi simulate_channel_utilization fst snd
       g_radio rand_src rand_calls clock_src clock_calls rx_callback_log].

Ltac open_machine m :=
  let g := fresh "g" in
  destruct m as [g ? ? ? ? ?];
  unfold draw, clock_now in *;
  cbn [g_radio rand_src rand_calls clock_src clock_calls rx_callback_log] in *.

(** X8 -- [radio_join_network] on an initialized, powered radio is decided
    by one draw: below 10 (of 100) it fails with TIMEOUT and the driver
    state is unchanged; otherwise it succeeds, marks the driver connected
    and stores the requested network id with 1..10 devices, a signal of
    -80..-61, link quality 70..99, zero uptime, no gateway flag and a hop
    count of 1..5 (never the unassociated 255); nothing but the network
    information and the connection flag changes. *)
Theorem join_network_outcome (m : machine) (id : Z) (key : list Z)
  (timeout_ms : Z) :
  initialized (g_radio m) = true ->
  power_state (g_radio m) <> RADIO_POWER_OFF ->
  let r := radio_join_network id (Some key) timeout_ms m in
  let g' := g_radio (snd r) in
  (Z.rem (draw m 0) 100 < 10 ->
     fst r = RADIO_ERROR_TIMEOUT /\ g' = g_radio m)
  /\ (10 <= Z.rem (draw m 0) 100 ->
     fst r = RADIO_OK
     /\ connected_to_network g' = true
     /\ info_network_id (network_info g') = id
     /\ 1 <= connected_devices (network_info g') <= 10
     /\ -80 <= signal_strength (network_info g') <= -61
     /\ 70 <= link_quality (network_info g') <= 99
     /\ uptime_seconds (network_info g') = 0
     /\ is_gateway (network_info g') = false
     /\ 1 <= hop_count (network_info g') <= 5
     /\ g' = set_connected_to_network true
               (set_network_info (network_info g') (g_radio m))).
Proof.
  intros Hinit Hpow r g'. subst g' r. open_machine m.
  unfold radio_join_network. run_monad. rewrite Hinit. cbn [negb].
  destruct (Z.eqb_spec (power_state g) RADIO_POWER_OFF); [contradiction|].
  rewrite Nat.add_0_r.
  destruct (Z.ltb_spec (Z.rem (Z.of_N (rand_src0 rand_calls0)) 100) 10);
    run_monad.
  - split; [intros _; split; reflexivity | lia].
  - split; [lia | intros _].
    cbn [connected_to_network network_info info_network_id connected_devices
         signal_strength link_quality uptime_seconds is_gateway hop_count
         set_connected_to_network on_network_info set_network_info
         set_info_network_id set_connected_devices set_signal_strength
         set_link_quality set_uptime_seconds set_is_gateway set_hop_count].
    split; [reflexivity|]. split; [reflexivity|]. split; [reflexivity|].
    split.
    { pose proof (u8_rem_range (Z.of_N (rand_src0 (S rand_calls0))) 10 1
                    (N2Z.is_nonneg _)). lia. }
    split.
    { apply (rssi_sample_range (Z.of_N (rand_src0 (S (S rand_calls0))))).
      apply N2Z.is_nonneg. }
    split.
    { pose proof (u8_rem_range (Z.of_N (rand_src0 (S (S (S rand_calls0))))) 30 70
                    (N2Z.is_nonneg _)). lia. }
    split; [reflexivity|]. split; [reflexivity|].
    split.
    { pose proof (u8_rem_range
                    (Z.of_N (rand_src0 (S (S (S (S rand_calls0)))))) 5 1
                    (N2Z.is_nonneg _)). lia. }
    reflexivity.
Qed.

Lemma join_network_outcome_witness :
  let r := radio_join_network 4660 (Some (repeat 0 RADIO_NETWORK_KEY_SIZE))
             1000 (example_machine 50) in
  fst r = RADIO_OK
  /\ connected_to_network (g_radio (snd r)) = true
  /\ info_network_id (network_info (g_radio (snd r))) = 4660.
Proof.
  destruct (join_network_outcome (example_machine 50) 4660
              (repeat 0 RADIO_NETWORK_KEY_SIZE) 1000) as [_ H].
  - reflexivity.
  - vm_compute. discriminate.
  - destruct H as (H1 & H2 & H3 & _).
    + vm_compute. discriminate.
    + split; [exact H1 | split; [exact H2 | exact H3]].
Defined.

(** X9 -- [radio_leave_network] on an initialized driver always succeeds,
    clears the connection flag and resets the hop count to 255 and the link
    quality to 0; leaving again changes nothing more, and a following
    [radio_get_network_info] fails with NOT_CONNECTED. *)
Theorem leave_network_resets (m : machine) :
  initialized (g_radio m) = true ->
  let r := radio_leave_network m in
  let g' := g_radio (snd r) in
  fst r = RADIO_OK
  /\ connected_to_network g' = false
  /\ hop_count (network_info g') = 255
  /\ link_quality (network_info g') = 0
  /\ radio_leave_network (snd r) = (RADIO_OK, snd r)
  /\ radio_get_network_info true (snd r)
     = ((RADIO_ERROR_NOT_CONNECTED, None), snd r).
Proof.
  intros Hinit r g'. subst g' r. open_machine m.
  unfold radio_leave_network, radio_get_network_info. run_monad.
  rewrite Hinit. cbn [negb]. run_monad.
  cbn [initialized connected_to_network network_info hop_count link_quality
       set_connected_to_network on_network_info set_network_info
       set_hop_count set_link_quality].
  rewrite Hinit. cbn [negb]. repeat split.
Qed.

Lemma leave_network_resets_witness :
  let r := radio_leave_network (example_machine 0) in
  fst r = RADIO_OK
  /\ hop_count (network_info (g_radio (snd r))) = 255
  /\ radio_get_network_info true (snd r)
     = ((RADIO_ERROR_NOT_CONNECTED, None), snd r).
Proof.
  destruct (leave_network_resets (example_machine 0))
    as (H1 & _ & H3 & _ & _ & H6).
  - reflexivity.
  - split; [exact H1 | split; [exact H3 | exact H6]].
Defined.

(** X10 -- [radio_get_network_info] on an initialized driver fails with
    NOT_CONNECTED, changing nothing, while no network is joined; once
    connected it returns the stored network information with a fresh
    signal sample (-80..-61) and the uptime set to the whole seconds
    elapsed since the last activity, and stores exactly that snapshot. *)
Theorem get_network_info_snapshot (m : machine) :
  initialized (g_radio m) = true ->
  let r := radio_get_network_info true m in
  let old := network_info (g_radio m) in
  let info := network_info (g_radio (snd r)) in
  (connected_to_network (g_radio m) = false ->
     r = ((RADIO_ERROR_NOT_CONNECTED, None), m))
  /\ (connected_to_network (g_radio m) = true ->
     fst r = (RADIO_OK, Some info)
     /\ info = set_uptime_seconds
                 (u32 (clock_now m - last_activity_time (g_radio m)) / 1000)
                 (set_signal_strength (rssi_sample (draw m 0)) old)
     /\ -80 <= signal_strength info <= -61
     /\ g_radio (snd r) = set_network_info info (g_radio m)).
Proof.
  intros Hinit r old info. subst info old r. open_machine m.
  unfold radio_get_network_info. run_monad. rewrite Hinit. cbn [negb].
  rewrite Nat.add_0_r.
  destruct (connected_to_network g); cbn [negb]; run_monad.
  - split; [discriminate|]. intros _.
    cbn [network_info on_network_info set_network_info last_activity_time
         set_signal_strength set_uptime_seconds signal_strength].
    split; [reflexivity|]. split; [reflexivity|].
    split; [|reflexivity].
    apply (rssi_sample_range (Z.of_N (rand_src0 rand_calls0))).
    apply N2Z.is_nonneg.
  - split; [reflexivity | discriminate].
Qed.

Lemma get_network_info_snapshot_witness :
  radio_get_network_info true (example_machine 0)
  = ((RADIO_ERROR_NOT_CONNECTED, None), example_machine 0).
Proof.
  destruct (get_network_info_snapshot (example_machine 0)) as [H _].
  - reflexivity.
  - apply H. reflexivity.
Defined.

Lemma scan_entries_spec (n : nat) :
  forall (i : Z) (m : machine),
    0 <= i -> i + Z.of_nat n <= 255 ->
    let r := scan_entries n i m in
    g_radio (snd r) = g_radio m
    /\ List.length (fst r) = n
    /\ forall k e, nth_error (fst r) k = Some e ->
                   scan_entry_ok (i + Z.of_nat k) e.
Proof.
  induction n as [|n IH]; intros i m Hi Hn r; subst r.
  - cbn. split; [reflexivity|]. split; [reflexivity|].
    intros [|k] e H; discriminate H.
  - open_machine m. cbn [scan_entries]. run_monad.
    match goal with
    | |- context [scan_entries n ?j ?m1] =>
      specialize (IH j m1); destruct (scan_entries n j m1) as [rest m2]
    end.
    assert (Hu : u8 (i + 1) = i + 1) by (unfold u8; apply Z.mod_small; lia).
    rewrite Hu in IH. destruct IH as (IHg & IHl & IHe); [lia | lia |].
    cbn [fst snd g_radio List.length] in *.
    split; [exact IHg|]. split; [rewrite IHl; reflexivity|].
    intros [|k] e H; cbn [nth_error] in H.
    + injection H as <-. unfold scan_entry_ok.
      cbn [info_network_id is_gateway connected_devices signal_strength
           link_quality uptime_seconds hop_count].
      rewrite Z.add_0_r.
      split; [unfold u16; apply Z.mod_small; lia|].
      split; [apply Z.eqb_eq|].
      split.
      { pose proof (u8_rem_range (Z.of_N (rand_src0 rand_calls0)) 10 1
                      (N2Z.is_nonneg _)). lia. }
      split.
      { apply (rssi_sample_range (Z.of_N (rand_src0 (S rand_calls0)))).
        apply N2Z.is_nonneg. }
      split.
      { pose proof (u8_rem_range (Z.of_N (rand_src0 (S (S rand_calls0)))) 50 50
                      (N2Z.is_nonneg _)). lia. }
      split.
      { pose proof (rem_nonneg_bounds
                      (Z.of_N (rand_src0 (S (S (S rand_calls0))))) 86400
                      (N2Z.is_nonneg _)) as Hup.
        unfold u32. rewrite Z.mod_small; lia. }
      pose proof (u8_rem_range
                    (Z.of_N (rand_src0 (S (S (S (S rand_calls0)))))) 5 1
                    (N2Z.is_nonneg _)). lia.
    + replace (i + Z.of_nat (S k)) with (i + 1 + Z.of_nat k) by lia.
      apply IHe. exact H.
Qed.

(** X11 -- [radio_scan_networks] on an initialized, powered radio reports
    min(draw % 5 + 1, max_networks) networks, at most five and never more
    than the caller's array holds; it writes exactly that many entries,
    entry k carrying network id 1000 + k with only entry 0 flagged as
    gateway and every drawn field in range; the driver state is not
    changed by a scan. *)
Theorem scan_networks_result (m : machine) (max_networks scan_time_ms : Z) :
  initialized (g_radio m) = true ->
  power_state (g_radio m) <> RADIO_POWER_OFF ->
  0 <= max_networks <= 255 ->
  let r := radio_scan_networks true max_networks true scan_time_ms m in
  exists found count,
    fst r = (RADIO_OK, Some (found, count))
    /\ count = Z.min (Z.rem (draw m 0) 5 + 1) max_networks
    /\ 0 <= count <= 5
    /\ count <= max_networks
    /\ Z.of_nat (List.length found) = count
    /\ (forall k e, nth_error found k = Some e ->
                    scan_entry_ok (Z.of_nat k) e)
    /\ g_radio (snd r) = g_radio m.
Proof.
  intros Hinit Hpow Hmax r. subst r.
  pose proof (rem_nonneg_bounds (draw m 0) 5 (draw_nonneg m 0) ltac:(lia))
    as Hd.
  open_machine m. rewrite Nat.add_0_r in *.
  unfold radio_scan_networks. run_monad. rewrite Hinit. cbn [negb orb].
  destruct (Z.eqb_spec (power_state g) RADIO_POWER_OFF); [contradiction|].
  set (d := Z.rem (Z.of_N (rand_src0 rand_calls0)) 5) in *.
  assert (Hu : u8 (d + 1) = d + 1) by (unfold u8; apply Z.mod_small; lia).
  rewrite Hu.
  set (count := if d + 1 >? max_networks then max_networks else d + 1).
  assert (Hcount : count = Z.min (d + 1) max_networks).
  { subst count. destruct (Z.gtb_spec (d + 1) max_networks); lia. }
  match goal with
  | |- context [scan_entries ?n ?j ?m1] =>
    pose proof (scan_entries_spec n j m1) as S;
    destruct (scan_entries n j m1) as [found m2]
  end.
  cbv zeta in S. cbn [fst snd g_radio] in *.
  destruct S as (Sg & Sl & Se); [lia | lia |].
  exists found, count.
  split; [reflexivity|]. split; [exact Hcount|].
  split; [lia|]. split; [lia|]. split; [rewrite Sl; lia|].
  split; [|exact Sg].
  intros k e H. apply (Se k e H).
Qed.

Lemma scan_networks_result_witness :
  let r := radio_scan_networks true 2 true 100 (example_machine 4) in
  exists found count,
    fst r = (RADIO_OK, Some (found, count))
    /\ count = Z.min (Z.rem (draw (example_machine 4) 0) 5 + 1) 2
    /\ 0 <= count <= 5
    /\ count <= 2
    /\ Z.of_nat (List.length found) = count
    /\ (forall k e, nth_error found k = Some e ->
                    scan_entry_ok (Z.of_nat k) e)
    /\ g_radio (snd r) = g_radio (example_machine 4).
Proof.
  apply (scan_networks_result (example_machine 4) 2 100).
  - reflexivity.
  - vm_compute. discriminate.
  - vm_compute. split; discriminate.
Defined.

(** ** The receive buffer as a queue *)

Lemma length_array_set {A : Type} (a : list A) (i : nat) (v : A) :
  List.length (array_set a i v) = List.length a.
Proof.
  revert i. induction a as [|h t IH]; intros [|i]; cbn; try reflexivity.
  rewrite IH. reflexivity.
Qed.

Lemma nth_array_set_same {A : Type} (a : list A) (i : nat) (v d : A) :
  (i < List.length a)%nat -> nth i (array_set a i v) d = v.
Proof.
  revert i. induction a as [|h t IH]; intros [|i] H; cbn in *; try lia.
  - reflexivity.
  - apply IH. lia.
Qed.

Lemma nth_array_set_other {A : Type} (a : list A) (i j : nat) (v d : A) :
  i <> j -> nth i (array_set a j v) d = nth i a d.
Proof.
  revert i j. induction a as [|h t IH]; intros [|i] [|j] H; cbn;
    try reflexivity; try contradiction.
  apply IH. congruence.
Qed.

(** Writing a slot that is not among the [n] slots from [t] on leaves the
    contents read from there unchanged. *)
Lemma ring_contents_set_outside (buf : list radio_packet_t) (h : Z)
  (p : radio_packet_t) (n : nat) :
  forall t, 0 <= t < 32 -> 0 <= h < 32 ->
    (forall j, 0 <= j < Z.of_nat n -> (t + j) mod 32 <> h) ->
    ring_contents (array_set buf (Z.to_nat h) p) t n = ring_contents buf t n.
Proof.
  induction n as [|n IH]; intros t Ht Hh Hout; cbn [ring_contents].
  - reflexivity.
  - f_equal.
    + apply nth_array_set_other. specialize (Hout 0 ltac:(lia)).
      rewrite Z.add_0_r, Z.mod_small in Hout by lia. lia.
    + apply IH; [apply Z.mod_pos_bound; lia | exact Hh |].
      intros j Hj. specialize (Hout (j + 1) ltac:(lia)).
      intros E. apply Hout. rewrite <- E.
      rewrite Zplus_mod_idemp_l.
      replace (t + 1 + j) with (t + (j + 1)) by lia. reflexivity.
Qed.

Lemma ring_contents_snoc (buf : list radio_packet_t) (n : nat) :
  forall t, 0 <= t < 32 ->
    ring_contents buf t (S n)
    = ring_contents buf t n
      ++ [nth (Z.to_nat ((t + Z.of_nat n) mod 32)) buf packet_zero].
Proof.
  induction n as [|n IH]; intros t Ht.
  - cbn. rewrite Z.add_0_r, Z.mod_small by lia. reflexivity.
  - change (ring_contents buf t (S (S n)))
      with (nth (Z.to_nat t) buf packet_zero
              :: ring_contents buf ((t + 1) mod 32) (S n)).
    rewrite IH by (apply Z.mod_pos_bound; lia).
    cbn [ring_contents app]. rewrite Zplus_mod_idemp_l.
    replace (t + 1 + Z.of_nat n) with (t + Z.of_nat (S n)) by lia.
    reflexivity.
Qed.

(** Storing a packet at the head appends it to the queue. *)
Lemma rx_queue_enqueued (g : radio_state_t) (p : radio_packet_t) :
  rx_consistent g -> rx_sized g -> rx_buffer_count g < 32 ->
  rx_queue (enqueued g p) = rx_queue g ++ [p].
Proof.
  intros (Hc & Hh & Ht & Hmod) Hlen Hroom. unfold rx_sized, RX_BUFFER_SIZE in Hlen.
  unfold rx_queue, enqueued.
  cbn [rx_buffer rx_buffer_tail rx_buffer_count on_stats set_stats
       set_rx_buffer_count set_rx_buffer_head set_rx_buffer].
  assert (Hu : u8 (rx_buffer_count g + 1) = rx_buffer_count g + 1)
    by (unfold u8; apply Z.mod_small; lia).
  rewrite Hu.
  replace (Z.to_nat (rx_buffer_count g + 1))
    with (S (Z.to_nat (rx_buffer_count g))) by lia.
  rewrite ring_contents_snoc by exact Ht.
  rewrite Z2Nat.id by lia.
  assert (Hhead : (rx_buffer_tail g + rx_buffer_count g) mod 32
                  = rx_buffer_head g).
  { Z.to_euclidean_division_equations. lia. }
  rewrite Hhead. rewrite nth_array_set_same by lia.
  f_equal. apply ring_contents_set_outside; try assumption.
  intros j Hj. rewrite Z2Nat.id in Hj by lia.
  Z.to_euclidean_division_equations. lia.
Qed.

(** Taking the packet at the tail removes the front of the queue. *)
Lemma rx_queue_dequeued (g : radio_state_t) :
  rx_consistent g -> rx_buffer_count g > 0 ->
  rx_queue g
  = nth (Z.to_nat (rx_buffer_tail g)) (rx_buffer g) packet_zero
      :: rx_queue (dequeued g).
Proof.
  intros (Hc & Hh & Ht & Hmod) Hsome. unfold rx_queue, dequeued.
  cbn [rx_buffer rx_buffer_tail rx_buffer_count set_rx_buffer_count
       set_rx_buffer_tail].
  assert (Hu : u8 (rx_buffer_count g - 1) = rx_buffer_count g - 1)
    by (unfold u8; apply Z.mod_small; lia).
  assert (Hv : u8 (Z.rem (rx_buffer_tail g + 1) 32)
               = (rx_buffer_tail g + 1) mod 32).
  { rewrite Z.rem_mod_nonneg by lia. unfold u8. apply Z.mod_small.
    pose proof (Z.mod_pos_bound (rx_buffer_tail g + 1) 32). lia. }
  rewrite Hu, Hv.
  replace (Z.to_nat (rx_buffer_count g))
    with (S (Z.to_nat (rx_buffer_count g - 1))) at 1 by lia.
  reflexivity.
Qed.

Lemma maintains_sized_reception : maintains rx_sized simulate_packet_reception.
Proof.
  intros m H. pose proof (simulate_packet_reception_radio m) as E.
  cbv zeta in E.
  destruct (arrival_due m && (rx_buffer_count (g_radio m) <? 32)).
  - destruct E as [p E]. rewrite E. unfold rx_sized, enqueued.
    cbn [rx_buffer on_stats set_stats set_rx_buffer_count set_rx_buffer_head
         set_rx_buffer].
    rewrite length_array_set. exact H.
  - rewrite E. exact H.
Qed.

Ltac maintain_sized :=
  repeat first
    [ maintain_step
    | match goal with
      | |- maintains rx_sized simulate_packet_reception =>
        apply maintains_sized_reception
      | |- maintains rx_sized dequeue => unfold dequeue
      | |- maintains rx_sized (assign (fun _ => radio_state_zero)) =>
        apply maintains_assign; intros ? _; reflexivity
      | |- maintains rx_sized (assign _) =>
        apply maintains_assign; intros ? H; exact H
      end ].

Lemma exec_rx_sized (c : radio_call) (m : machine) :
  rx_sized (g_radio m) -> rx_sized (g_radio (exec c m)).
Proof.
  revert m. change (maintains rx_sized (fun m => (tt, exec c m))).
  assert (lift : forall (A : Type) (k : M A),
             maintains rx_sized k ->
             maintains rx_sized (fun m => (tt, snd (k m)))).
  { intros A k Hk m H. apply Hk. exact H. }
  destruct c; cbn [exec]; apply lift; unfold radio_init; unfold_api;
    maintain_sized.
Qed.

Lemma reachable_rx_sized (m : machine) : reachable m -> rx_sized (g_radio m).
Proof.
  induction 1 as [rs cs | m c _ IH].
  - reflexivity.
  - apply exec_rx_sized. exact IH.
Qed.

(** What an arrival injection does to the queue, given the buffer
    bookkeeping is consistent. *)
Lemma arrival_effect (m : machine) :
  rx_consistent (g_radio m) ->
  rx_sized (g_radio m) ->
  let g := g_radio m in
  let m' := exec Arrival m in
  let g' := g_radio m' in
  if arrival_due m && (rx_buffer_count g <? 32)
  then exists p,
      rx_queue g' = rx_queue g ++ [p]
      /\ rx_buffer_count g' = rx_buffer_count g + 1
      /\ packets_received (stats g') = u32 (packets_received (stats g) + 1)
      /\ 1 <= payload_size p <= 100
      /\ priority p = RADIO_PRIORITY_NORMAL
      /\ require_ack p = false
      /\ rx_callback_log m'
         = if rx_callback g =? NULL then rx_callback_log m
           else (rx_callback g, p, rx_user_data g) :: rx_callback_log m
  else g' = g /\ rx_callback_log m' = rx_callback_log m.
Proof.
  intros Hc Hs g m' g'. subst g' m'. cbn [exec].
  pose proof (simulate_packet_reception_full m) as E. cbv zeta in E.
  fold g in E, Hc, Hs |- *.
  destruct arrival_due; cbn [andb] in *.
  - destruct (Z.ltb_spec (rx_buffer_count g) 32) as [Hroom|].
    + destruct E as (p & Eg & Hsz & Hpr & Hack & _ & Hlog).
      exists p. rewrite Eg.
      split; [apply rx_queue_enqueued; assumption|].
      split.
      { unfold enqueued.
        cbn [rx_buffer_count on_stats set_stats set_rx_buffer_count].
        unfold u8. apply Z.mod_small. destruct Hc as (Hc & _). lia. }
      split; [reflexivity|].
      repeat (split; [assumption|]). exact Hlog.
    + exact E.
  - exact E.
Qed.


Lemma started_machine_reachable : reachable started_machine.
Proof. apply reachable_run, reachable_boot. Qed.


Lemma bind_run {A B : Type} (c : M A) (k : A -> M B) (m : machine) :
  bind c k m = k (fst (c m)) (snd (c m)).
Proof. unfold bind. destruct (c m). reflexivity. Qed.



(** ** Transaction ids *)

Lemma u16_small (x : Z) : 0 <= x < 65536 -> u16 x = x.
Proof. intros H. unfold u16. apply Z.mod_small. exact H. Qed.

(** X14 -- consecutive asynchronous sends on an initialized, powered radio
    all succeed and hand out consecutive transaction ids starting at
    [next_tx_id], counted modulo 65536 (so id 0 follows 65535). *)
Theorem async_ids_consecutive (n : nat) (p : radio_packet_t) :
  payload_size p <= RADIO_MAX_PAYLOAD_SIZE ->
  forall m : machine,
    initialized (g_radio m) = true ->
    power_state (g_radio m) <> RADIO_POWER_OFF ->
    0 <= next_tx_id (g_radio m) < 65536 ->
    issued_ids (repeat (Call_send_packet_async (Some p) true) n) m
    = map (fun k => u16 (next_tx_id (g_radio m) + Z.of_nat k)) (seq 0 n).
Proof.
  intros Hsize. induction n as [|n IH]; intros m Hinit Hpow Hid.
  - reflexivity.
  - destruct (send_async_effect m p Hinit Hsize Hpow)
      as (Hr & Hi & Hp & _ & Hn).
    cbn [repeat issued_ids exec seq map]. rewrite Hr. cbn [fst snd app].
    rewrite Z.add_0_r. rewrite (u16_small _ Hid). f_equal.
    rewrite IH.
    + rewrite <- seq_shift, map_map. apply map_ext. intros k.
      rewrite Hn. unfold u16. rewrite Zplus_mod_idemp_l.
      f_equal. lia.
    + exact Hi.
    + rewrite Hp. exact Hpow.
    + rewrite Hn. unfold u16. apply Z.mod_pos_bound. lia.
Qed.

Lemma async_ids_consecutive_witness :
  issued_ids (repeat (Call_send_packet_async (Some (packet_of_size 32)) true) 3)
    started_machine
  = map (fun k => u16 (next_tx_id (g_radio started_machine) + Z.of_nat k))
      (seq 0 3).
Proof.
  apply async_ids_consecutive.
  - vm_compute. discriminate.
  - vm_compute. reflexivity.
  - vm_compute. discriminate.
  - vm_compute. split; [discriminate | reflexivity].
Defined.

(** ** Statistics *)

(** X15 -- [radio_get_statistics] on an initialized driver succeeds and
    returns the statistics it stores: the six cumulative counters and the
    cumulative airtime are exactly what they were, the RSSI sample lies in
    -80..-61, the utilization sample in 10..39, and nothing outside the
    statistics changes. *)
Theorem get_statistics_keeps_counters (m : machine) :
  initialized (g_radio m) = true ->
  let r := radio_get_statistics true m in
  let old := stats (g_radio m) in
  exists st,
    fst r = (RADIO_OK, Some st)
    /\ g_radio (snd r) = set_stats st (g_radio m)
    /\ packets_sent st = packets_sent old
    /\ packets_received st = packets_received old
    /\ packets_lost st = packets_lost old
    /\ retries_attempted st = retries_attempted old
    /\ crc_errors st = crc_errors old
    /\ timeouts st = timeouts old
    /\ total_airtime_ms st = total_airtime_ms old
    /\ -80 <= last_rssi st <= -61
    /\ 10 <= channel_utilization st <= 39
    /\ power_consumption_mw st
       = radio_estimate_power_consumption (power_state (g_radio m))
           (u32 (clock_now m - last_activity_time (g_radio m))) / 1000.
Proof.
  intros Hinit r old. subst old r. open_machine m.
  unfold radio_get_statistics. run_monad. rewrite Hinit. cbn [negb].
  eexists. split; [reflexivity|].
  cbn [stats on_stats set_stats set_last_rssi set_channel_utilization
       set_power_consumption_mw packets_sent packets_received packets_lost
       retries_attempted crc_errors timeouts total_airtime_ms last_rssi
       channel_utilization power_consumption_mw power_state
       last_activity_time].
  split; [reflexivity|].
  do 7 (split; [reflexivity|]).
  split.
  { apply (rssi_sample_range (Z.of_N (rand_src0 rand_calls0))).
    apply N2Z.is_nonneg. }
  split; [|reflexivity].
  pose proof (u8_rem_range (Z.of_N (rand_src0 (S rand_calls0))) 30 10
                (N2Z.is_nonneg _)). lia.
Qed.

Lemma get_statistics_keeps_counters_witness :
  exists st,
    fst (radio_get_statistics true saturated_machine) = (RADIO_OK, Some st)
    /\ packets_sent st = packets_sent (stats (g_radio saturated_machine)).
Proof.
  destruct (get_statistics_keeps_counters saturated_machine)
    as (st & H1 & _ & H3 & _).
  - reflexivity.
  - exists st. split; [exact H1 | exact H3].
Defined.

(** X16 -- [radio_reset_statistics] followed by [radio_get_statistics]
    reports every cumulative counter and the cumulative airtime as zero,
    whatever they were before; the reset itself changes only the
    statistics. *)
Theorem reset_then_get_statistics (m : machine) :
  initialized (g_radio m) = true ->
  let r1 := radio_reset_statistics m in
  let r2 := radio_get_statistics true (snd r1) in
  exists st,
    fst r1 = RADIO_OK
    /\ g_radio (snd r1) = set_stats (stats (g_radio (snd r1))) (g_radio m)
    /\ fst r2 = (RADIO_OK, Some st)
    /\ packets_sent st = 0
    /\ packets_received st = 0
    /\ packets_lost st = 0
    /\ retries_attempted st = 0
    /\ crc_errors st = 0
    /\ timeouts st = 0
    /\ total_airtime_ms st = 0.
Proof.
  intros Hinit r1 r2. subst r2 r1. open_machine m.
  unfold radio_reset_statistics, radio_get_statistics. run_monad.
  rewrite Hinit. cbn [negb]. run_monad.
  cbn [initialized on_stats set_stats]. rewrite Hinit. cbn [negb].
  eexists. split; [reflexivity|]. split; [reflexivity|].
  split; [reflexivity|]. repeat split.
Qed.

Lemma reset_then_get_statistics_witness :
  exists st,
    fst (radio_get_statistics true
           (snd (radio_reset_statistics saturated_machine)))
    = (RADIO_OK, Some st)
    /\ packets_sent st = 0.
Proof.
  destruct (reset_then_get_statistics saturated_machine)
    as (st & _ & _ & H3 & H4 & _).
  - reflexivity.
  - exists st. split; [exact H3 | exact H4].
Defined.

(** ** Diagnostics *)

(** X17 -- [radio_get_firmware_version] on an initialized driver rejects a
    missing buffer or a capacity below 8 with INVALID_PARAM; otherwise it
    writes the first min(10, capacity - 1) characters of the version
    string, so the text and its terminator always fit the buffer, and the
    whole string once the capacity is at least 11.  The machine is not
    changed. *)
Theorem firmware_version_fits (m : machine) (buffer_size : Z) :
  initialized (g_radio m) = true ->
  let r := radio_get_firmware_version true buffer_size m in
  snd r = m
  /\ (buffer_size < 8 -> fst r = (RADIO_ERROR_INVALID_PARAM, None))
  /\ (8 <= buffer_size ->
      exists s,
        fst r = (RADIO_OK, Some s)
        /\ s = substring 0 (String.length s) firmware_version
        /\ Z.of_nat (String.length s) = Z.min 10 (buffer_size - 1)
        /\ Z.of_nat (String.length s) + 1 <= buffer_size
        /\ (11 <= buffer_size -> s = firmware_version)).
Proof.
  intros Hinit r. subst r. unfold radio_get_firmware_version.
  rewrite bind_load, Hinit. cbn [negb orb].
  destruct (Z.ltb_spec buffer_size 8) as [Hlt | Hge].
  - split; [reflexivity|]. split; [reflexivity | lia].
  - split; [reflexivity|]. split; [lia|]. intros _. cbv zeta.
    change (Z.of_nat (String.length "v2.1.4-sim")) with 10.
    destruct (Z.geb_spec 10 buffer_size) as [Hsmall | Hbig].
    + assert (Hcase : buffer_size = 8 \/ buffer_size = 9 \/ buffer_size = 10)
        by lia.
      destruct Hcase as [-> | [-> | ->]]; eexists;
        (split; [reflexivity|]); cbn; repeat split;
        try reflexivity; lia.
    + replace (Z.to_nat 10) with 10%nat by reflexivity.
      eexists. split; [reflexivity|]. cbn. repeat split;
        try reflexivity; lia.
Qed.

Lemma firmware_version_fits_witness :
  let r := radio_get_firmware_version true 9 (example_machine 0) in
  snd r = example_machine 0
  /\ fst r = (RADIO_OK, Some "v2.1.4-s"%string).
Proof.
  destruct (firmware_version_fits (example_machine 0) 9) as (H1 & _ & H3).
  - reflexivity.
  - split; [exact H1 | reflexivity].
Defined.

(** X18 -- [radio_get_error_string] gives each of the seventeen error
    codes its own message, none of them the fallback, and gives every
    other integer the fallback message. *)
Theorem error_strings_distinct :
  (forall e1 e2 : radio_error_t,
      radio_get_error_string (error_code e1)
      = radio_get_error_string (error_code e2) -> e1 = e2)
  /\ (forall e : radio_error_t,
      radio_get_error_string (error_code e) <> "Unknown error"%string)
  /\ (forall code : Z, code < -16 \/ 0 < code ->
      radio_get_error_string code = "Unknown error"%string).
Proof.
  split; [|split].
  - intros e1 e2 H. destruct e1, e2; try reflexivity;
      vm_compute in H; discriminate H.
  - intros e H. destruct e; vm_compute in H; discriminate H.
  - intros code H. unfold radio_get_error_string, error_code.
    repeat match goal with
           | |- context [?a =? ?b] => destruct (Z.eqb_spec a b); [lia|]
           end.
    reflexivity.
Qed.

(** ** Lifecycle and association invariants *)

(** Splits on the condition of the first conditional of the goal. *)
Ltac case_if :=
  match goal with
  | |- context [if ?c then _ else _] =>
    lazymatch c with
    | negb (initialized ?g) => destruct (initialized g) eqn:?
    | negb (connected_to_network ?g) =>
      destruct (connected_to_network g) eqn:?
    | context [?a =? ?b] => destruct (Z.eqb_spec a b)
    | context [?a <? ?b] => destruct (Z.ltb_spec a b)
    | context [?a >? ?b] => destruct (Z.gtb_spec a b)
    | context [?a >=? ?b] => destruct (Z.geb_spec a b)
    | negb ?b => destruct b eqn:?
    | _ => destruct c eqn:?
    end; cbn [negb andb orb]
  end.

Ltac name_draws :=
  repeat match goal with
         | |- context [u8 (Z.rem (Z.of_N ?x) ?d + ?k)] =>
           let H := fresh "Hdraw" in
           let v := fresh "v" in
           pose proof (u8_rem_range (Z.of_N x) d k (N2Z.is_nonneg x)) as H;
           remember (u8 (Z.rem (Z.of_N x) d + k)) as v eqn:Ev; clear Ev
         end.

Ltac simpl_state :=
  cbn [initialized config power_state stats network_info
       connected_to_network next_tx_id hop_count link_quality
       set_initialized set_config set_power_state set_stats set_network_info
       set_connected_to_network set_rx_callback set_rx_user_data
       set_event_callback set_event_user_data set_next_tx_id
       set_last_activity_time set_rx_buffer_count set_rx_buffer
       set_rx_buffer_head set_rx_buffer_tail on_stats on_network_info
       set_info_network_id set_connected_devices set_signal_strength
       set_link_quality set_uptime_seconds set_is_gateway set_hop_count] in *.

Ltac solve_wf :=
  unfold driver_wf, RADIO_POWER_OFF, RADIO_POWER_RX, RADIO_POWER_TX,
    RADIO_POWER_IDLE in *;
  simpl_state;
  repeat match goal with
         | H : _ /\ _ |- _ => destruct H
         end;
  repeat split; intros;
  repeat match goal with
         | H : ?a = ?b -> _, E : ?a = ?b |- _ => specialize (H E)
         | H : _ /\ _ |- _ => destruct H
         end;
  try assumption; try discriminate; try congruence; try lia;
  try (unfold u16; apply Z.mod_pos_bound; lia).


Ltac wf_direct m H :=
  intros m H; open_machine m; unfold_api; run_monad;
  repeat (case_if; run_monad); name_draws; solve_wf.

Lemma wf_zero : driver_wf radio_state_zero.
Proof. unfold driver_wf. cbn. repeat split; intros; try lia; discriminate. Qed.

Lemma wf_init (config : option radio_config_t) :
  maintains driver_wf (radio_init config).
Proof.
  intros m H. unfold radio_init. destruct config as [cfg|]; [|exact H].
  destruct (validate_config cfg) eqn:Hv; cbn [negb]; [|exact H].
  clear H. open_machine m. run_monad. solve_wf.
Qed.

Lemma wf_configure (config : option radio_config_t) :
  maintains driver_wf (radio_configure config).
Proof. destruct config; wf_direct m H. Qed.

Lemma wf_set_power_state (p : radio_power_state_t) :
  maintains driver_wf (radio_set_power_state p).
Proof. wf_direct m H. Qed.

Lemma wf_send_packet (packet : option radio_packet_t) :
  maintains driver_wf (radio_send_packet packet).
Proof. destruct packet; wf_direct m H. Qed.

Lemma wf_join_network (id : Z) (key : option (list Z)) (timeout_ms : Z) :
  maintains driver_wf (radio_join_network id key timeout_ms).
Proof. destruct key; wf_direct m H. Qed.

Lemma wf_leave_network : maintains driver_wf radio_leave_network.
Proof. wf_direct m H. Qed.

Lemma wf_deinit : maintains driver_wf radio_deinit.
Proof. wf_direct m H. Qed.

Lemma wf_reception : maintains driver_wf simulate_packet_reception.
Proof.
  intros m H. pose proof (simulate_packet_reception_radio m) as E.
  cbv zeta in E.
  destruct (arrival_due m && (rx_buffer_count (g_radio m) <? 32)).
  - destruct E as [p E]. rewrite E. exact H.
  - rewrite E. exact H.
Qed.

Ltac maintain_wf :=
  repeat first
    [ maintain_step
    | match goal with
      | |- maintains driver_wf simulate_packet_reception => apply wf_reception
      | |- maintains driver_wf dequeue => unfold dequeue
      | |- maintains driver_wf (assign _) =>
        apply maintains_assign; intros ? H; first [exact H | solve_wf]
      end ].

Lemma exec_driver_wf (c : radio_call) (m : machine) :
  driver_wf (g_radio m) -> driver_wf (g_radio (exec c m)).
Proof.
  revert m. change (maintains driver_wf (fun m => (tt, exec c m))).
  assert (lift : forall (A : Type) (k : M A),
             maintains driver_wf k ->
             maintains driver_wf (fun m => (tt, snd (k m)))).
  { intros A k Hk m H. apply Hk. exact H. }
  destruct c; cbn [exec]; apply lift;
    first [ apply wf_init | apply wf_configure | apply wf_set_power_state
          | apply wf_send_packet | apply wf_join_network
          | apply wf_leave_network | apply wf_deinit
          | unfold_api; maintain_wf ].
Qed.

Lemma reachable_driver_wf (m : machine) : reachable m -> driver_wf (g_radio m).
Proof.
  induction 1 as [rs cs | m c _ IH].
  - apply wf_zero.
  - apply exec_driver_wf. exact IH.
Qed.

(** X19 -- in every reachable state a connected driver is initialized and
    powered (never Off), with a hop count of 1..5 and a link quality of
    70..99: being connected is impossible while the radio is off or
    after [radio_deinit]. *)
Theorem connected_implies_powered (m : machine) :
  reachable m ->
  connected_to_network (g_radio m) = true ->
  initialized (g_radio m) = true
  /\ power_state (g_radio m) <> RADIO_POWER_OFF
  /\ 1 <= hop_count (network_info (g_radio m)) <= 5
  /\ 70 <= link_quality (network_info (g_radio m)) <= 99.
Proof.
  intros Hreach Hconn.
  destruct (reachable_driver_wf m Hreach) as (_ & _ & Hoff & _ & Hlink).
  split; [|apply Hlink; exact Hconn].
  destruct (initialized (g_radio m)) eqn:E; [reflexivity|].
  destruct (Hoff eq_refl) as [_ Hno]. congruence.
Qed.

(** X20 -- in every reachable state the power state is one of the six
    defined values and the next transaction id fits 16 bits; while the
    driver is initialized the stored configuration is one that passes
    validation (channel below 125, at most 5 retries, non-zero timeout),
    and while it is not, the radio is Off, so arrival injections do
    nothing. *)
Theorem lifecycle_invariant (m : machine) :
  reachable m ->
  let g := g_radio m in
  RADIO_POWER_OFF <= power_state g <= RADIO_POWER_TX
  /\ 0 <= next_tx_id g < 65536
  /\ (initialized g = true ->
      channel (config g) < RADIO_MAX_CHANNELS
      /\ max_retries (config g) <= RADIO_MAX_RETRIES
      /\ tx_timeout_ms (config g) <> 0)
  /\ (initialized g = false ->
      power_state g = RADIO_POWER_OFF /\ exec Arrival m = m).
Proof.
  intros Hreach g.
  destruct (reachable_driver_wf m Hreach) as (Hp & Hid & Hoff & Hcfg & _).
  fold g in Hp, Hid, Hoff, Hcfg.
  split; [exact Hp|]. split; [exact Hid|]. split.
  - intros Hinit. specialize (Hcfg Hinit). unfold validate_config in Hcfg.
    destruct (Z.geb_spec (channel (config g)) RADIO_MAX_CHANNELS);
      [discriminate|].
    destruct (Z.gtb_spec (max_retries (config g)) RADIO_MAX_RETRIES);
      [discriminate|].
    destruct (Z.eqb_spec (tx_timeout_ms (config g)) 0); [discriminate|].
    repeat split; lia || assumption.
  - intros Hinit. destruct (Hoff Hinit) as [Hpow _]. split; [exact Hpow|].
    cbn [exec]. unfold simulate_packet_reception. rewrite bind_load.
    fold g. rewrite Hpow. reflexivity.
Qed.

Lemma connected_implies_powered_witness :
  initialized (g_radio joined_machine) = true
  /\ power_state (g_radio joined_machine) <> RADIO_POWER_OFF
  /\ 1 <= hop_count (network_info (g_radio joined_machine)) <= 5
  /\ 70 <= link_quality (network_info (g_radio joined_machine)) <= 99.
Proof.
  apply connected_implies_powered.
  - apply reachable_run, reachable_boot.
  - vm_compute. reflexivity.
Defined.

Lemma lifecycle_invariant_witness :
  let g := g_radio joined_machine in
  RADIO_POWER_OFF <= power_state g <= RADIO_POWER_TX
  /\ 0 <= next_tx_id g < 65536
  /\ (initialized g = true ->
      channel (config g) < RADIO_MAX_CHANNELS
      /\ max_retries (config g) <= RADIO_MAX_RETRIES
      /\ tx_timeout_ms (config g) <> 0)
  /\ (initialized g = false ->
      power_state g = RADIO_POWER_OFF
      /\ exec Arrival joined_machine = joined_machine).
Proof.
  apply (lifecycle_invariant joined_machine).
  apply reachable_run, reachable_boot.
Defined.

(** ** Occupancy of the receive buffer *)

Lemma count_after_reception (m : machine) :
  rx_consistent (g_radio m) ->
  let c := rx_buffer_count (g_radio m) in
  let c' := rx_buffer_count (g_radio (snd (simulate_packet_reception m))) in
  c' = c \/ (c < 32 /\ c' = c + 1).
Proof.
  intros (Hc & _) c c'. subst c'.
  pose proof (simulate_packet_reception_radio m) as E. cbv zeta in E.
  fold c in Hc, E |- *.
  destruct (arrival_due m); cbn [andb] in E.
  - destruct (Z.ltb_spec c 32) as [Hroom|].
    + destruct E as [p E]. rewrite E. right. split; [exact Hroom|].
      unfold enqueued.
      cbn [rx_buffer_count on_stats set_stats set_rx_buffer_count].
      fold c. unfold u8. apply Z.mod_small. lia.
    + rewrite E. left. reflexivity.
  - rewrite E. left. reflexivity.
Qed.

Lemma count_after_take (k : M (radio_error_t * option radio_packet_t))
  (m : machine) (bound : Z) :
  rx_consistent (g_radio m) ->
  rx_buffer_count (g_radio m) <= bound + 1 ->
  (rx_buffer_count (g_radio m) <= 0 ->
   rx_buffer_count (g_radio (snd (k m))) <= bound) ->
  0 <= bound ->
  rx_buffer_count
    (g_radio
       (snd ((g <- load ;;
              if rx_buffer_count g >? 0
              then p <- dequeue ;; ret (RADIO_OK, Some p)
              else k) m))) <= bound.
Proof.
  intros (Hc & _) Hle Hk Hb. rewrite bind_load.
  destruct (Z.gtb_spec (rx_buffer_count (g_radio m)) 0).
  - change (rx_buffer_count (dequeued (g_radio m)) <= bound).
    unfold dequeued. cbn [rx_buffer_count set_rx_buffer_count].
    unfold u8. rewrite Z.mod_small; lia.
  - apply Hk. lia.
Qed.

Lemma receive_count_le (m : machine) (packet : bool) (timeout_ms : Z) :
  rx_consistent (g_radio m) ->
  rx_buffer_count (g_radio (snd (radio_receive_packet packet timeout_ms m)))
  <= rx_buffer_count (g_radio m).
Proof.
  intros Hc.
  unfold radio_receive_packet. rewrite bind_load.
  destruct (negb (initialized (g_radio m))); [cbn; lia|].
  destruct (negb packet); [cbn; lia|].
  destruct (power_state (g_radio m) =? RADIO_POWER_OFF); [cbn; lia|].
  rewrite bind_run.
  pose proof (count_after_reception m Hc) as H1. cbv zeta in H1.
  pose proof (maintains_simulate_packet_reception m Hc) as Hc1.
  set (m1 := snd (simulate_packet_reception m)) in *.
  pose proof Hc as (Hrange & _).
  apply count_after_take; [exact Hc1 | lia | | lia].
  intros Hempty.
  destruct (timeout_ms =? 0); [cbn [ret snd]; lia|].
  destruct (timeout_ms >? 100); [|cbn [ret snd]; lia].
  rewrite bind_run.
  pose proof (count_after_reception m1 Hc1) as H2. cbv zeta in H2.
  pose proof (maintains_simulate_packet_reception m1 Hc1) as Hc2.
  set (m2 := snd (simulate_packet_reception m1)) in *.
  apply count_after_take; [exact Hc2 | lia | | lia].
  intros Hempty2. cbn [ret snd]. lia.
Qed.

(** X21 -- [radio_receive_packet] never leaves more packets buffered than
    it found: a packet that arrives during the call is offset by the one
    the call hands out. *)
Theorem receive_never_grows_buffer (m : machine) (packet : bool)
  (timeout_ms : Z) :
  reachable m ->
  rx_buffer_count (g_radio (snd (radio_receive_packet packet timeout_ms m)))
  <= rx_buffer_count (g_radio m).
Proof.
  intros Hreach. apply receive_count_le.
  apply reachable_rx_consistent. exact Hreach.
Qed.

Lemma receive_never_grows_buffer_witness :
  rx_buffer_count
    (g_radio (snd (radio_receive_packet true 0 (exec Arrival started_machine))))
  <= rx_buffer_count (g_radio (exec Arrival started_machine)).
Proof.
  apply receive_never_grows_buffer.
  apply reachable_step, started_machine_reachable.
Defined.

Ltac maintain_empty :=
  repeat first
    [ maintain_step
    | match goal with
      | |- maintains _ (assign (fun _ => radio_state_zero)) =>
        apply maintains_assign; intros ? _; reflexivity
      | |- maintains _ (assign _) =>
        apply maintains_assign; intros ? H; exact H
      end ].

Lemma exec_api_keeps_empty (c : radio_call) (m : machine) :
  c <> Arrival ->
  rx_consistent (g_radio m) ->
  rx_buffer_count (g_radio m) = 0 ->
  rx_buffer_count (g_radio (exec c m)) = 0.
Proof.
  intros Hc Hcons Hzero.
  assert (lift : forall (A : Type) (k : M A),
             maintains (fun g => rx_buffer_count g = 0) k ->
             rx_buffer_count (g_radio (snd (k m))) = 0).
  { intros A k Hk. apply Hk. exact Hzero. }
  destruct c; try contradiction; cbn [exec];
    try solve [apply lift; unfold radio_init; unfold_api; maintain_empty].
  pose proof (receive_count_le m packet timeout_ms Hcons) as Hle.
  pose proof (maintains_receive_packet packet timeout_ms m Hcons)
    as ((Hge & _) & _).
  lia.
Qed.

(** X22 -- as long as packets only arrive inside [radio_receive_packet]
    (a run of API calls without arrival injections from outside), the
    receive buffer is empty after every call: whatever arrives during a
    receive is handed out by that same call. *)
Theorem api_only_buffer_empty (calls : list radio_call)
  (rand_src clock_src : nat -> N) :
  api_only calls = true ->
  let g := g_radio (run calls (boot rand_src clock_src)) in
  rx_buffer_count g = 0 /\ rx_queue g = [].
Proof.
  intros Hapi g.
  assert (H : rx_buffer_count g = 0).
  { subst g.
    assert (G : forall m, reachable m -> rx_buffer_count (g_radio m) = 0 ->
                          rx_buffer_count (g_radio (run calls m)) = 0).
    { induction calls as [|c calls IH]; intros m Hreach Hzero;
        cbn [run fold_left].
      - exact Hzero.
      - cbn [api_only forallb] in Hapi. apply andb_prop in Hapi.
        destruct Hapi as [Hc Hrest].
        apply (IH Hrest).
        + apply reachable_step. exact Hreach.
        + apply exec_api_keeps_empty;
            [ intros ->; discriminate Hc
            | apply reachable_rx_consistent; exact Hreach
            | exact Hzero ]. }
    apply G; [apply reachable_boot | reflexivity]. }
  split; [exact H|]. unfold rx_queue. rewrite H. reflexivity.
Qed.

Lemma api_only_buffer_empty_witness :
  let g := g_radio (run [Call_init (Some example_config);
                         Call_receive_packet true 0;
                         Call_receive_packet true 1000]
                      (boot no_rand no_clock)) in
  rx_buffer_count g = 0 /\ rx_queue g = [].
Proof.
  apply api_only_buffer_empty. reflexivity.
Defined.

(** ** Argument and power guards *)

(** X23 -- on an initialized driver whose radio is Off, receive, scan,
    join, RSSI measurement and channel-utilization measurement all fail
    with POWER_FAILURE and leave the machine exactly as it was (no draw is
    taken, no arrival is simulated). *)
Theorem powered_off_calls_rejected (c : radio_call) (m : machine) :
  initialized (g_radio m) = true ->
  power_state (g_radio m) = RADIO_POWER_OFF ->
  power_gated c = true ->
  status_of c m = Some RADIO_ERROR_POWER_FAILURE /\ exec c m = m.
Proof.
  intros Hinit Hoff Hc.
  destruct c; try discriminate Hc;
    repeat match goal with
           | b : bool |- _ => destruct b; try discriminate Hc
           | o : option _ |- _ => destruct o; try discriminate Hc
           end;
    cbn [status_of exec]; unfold_api;
    rewrite bind_load, Hinit, Hoff; split; reflexivity.
Qed.

Lemma powered_off_calls_rejected_witness :
  status_of (Call_receive_packet true 0) powered_off_machine
  = Some RADIO_ERROR_POWER_FAILURE
  /\ exec (Call_receive_packet true 0) powered_off_machine
     = powered_off_machine.
Proof.
  apply powered_off_calls_rejected; reflexivity.
Defined.

(** X24 -- on an initialized driver a null pointer argument is answered
    with INVALID_PARAM before anything else is looked at (power state,
    connection, packet size, buffer capacity), and the machine is left
    exactly as it was. *)
Theorem null_arguments_rejected (c : radio_call) (m : machine) :
  initialized (g_radio m) = true ->
  null_argument c = true ->
  status_of c m = Some RADIO_ERROR_INVALID_PARAM /\ exec c m = m.
Proof.
  intros Hinit Hc.
  destruct c; try discriminate Hc;
    repeat match goal with
           | b : bool |- _ => destruct b; try discriminate Hc
           | o : option _ |- _ => destruct o; try discriminate Hc
           end;
    cbn [status_of exec]; unfold radio_init; unfold_api;
    try rewrite bind_load, Hinit; split; reflexivity.
Qed.

Lemma null_arguments_rejected_witness :
  status_of (Call_send_packet None) powered_off_machine
  = Some RADIO_ERROR_INVALID_PARAM
  /\ exec (Call_send_packet None) powered_off_machine = powered_off_machine.
Proof.
  apply null_arguments_rejected; reflexivity.
Defined.

(** ** Transmission outcome *)

(** X25 -- the outcome of an admitted [radio_send_packet] is decided by
    one draw: below 5 (of 100) the call returns NO_ACK and counts the
    packet as lost, otherwise it returns RADIO_OK and the lost counter
    stays; either way the last-activity time becomes the clock reading,
    no retry is attempted or counted whatever the configuration says, and
    only the statistics, the power state and the last-activity time
    change. *)
Theorem send_outcome_by_draw (m : machine) (p : radio_packet_t) :
  initialized (g_radio m) = true ->
  payload_size p <= RADIO_MAX_PAYLOAD_SIZE ->
  power_state (g_radio m) <> RADIO_POWER_OFF ->
  let r := radio_send_packet (Some p) m in
  let g := g_radio m in
  let g' := g_radio (snd r) in
  let lost := Z.rem (draw m 0) 100 <? 5 in
  fst r = (if lost then RADIO_ERROR_NO_ACK else RADIO_OK)
  /\ packets_lost (stats g')
     = (if lost then u32 (packets_lost (stats g) + 1)
        else packets_lost (stats g))
  /\ retries_attempted (stats g') = retries_attempted (stats g)
  /\ timeouts (stats g') = timeouts (stats g)
  /\ packets_received (stats g') = packets_received (stats g)
  /\ last_activity_time g' = clock_now m
  /\ rand_calls (snd r) = S (rand_calls m)
  /\ g' = set_power_state RADIO_POWER_IDLE
            (set_last_activity_time (clock_now m) (set_stats (stats g') g)).
Proof.
  intros Hinit Hsize Hpow r g g' lost. subst lost g' g r. open_machine m.
  rewrite Nat.add_0_r.
  unfold radio_send_packet. run_monad. rewrite Hinit. cbn [negb].
  destruct (Z.gtb_spec (payload_size p) RADIO_MAX_PAYLOAD_SIZE); [lia|].
  destruct (Z.eqb_spec (power_state g) RADIO_POWER_OFF); [contradiction|].
  destruct (Z.rem (Z.of_N (rand_src0 rand_calls0)) 100 <? 5); run_monad;
    repeat split.
Qed.

Lemma send_outcome_by_draw_witness :
  let r := radio_send_packet (Some (packet_of_size 32)) (example_machine 3) in
  fst r = RADIO_ERROR_NO_ACK
  /\ packets_lost (stats (g_radio (snd r))) = 1.
Proof.
  destruct (send_outcome_by_draw (example_machine 3) (packet_of_size 32))
    as (H1 & H2 & _).
  - reflexivity.
  - vm_compute. discriminate.
  - vm_compute. discriminate.
  - split; [exact H1 | exact H2].
Defined.

(** ** Waiting for a packet *)



(** ** Reading the power state back *)

(** X27 -- [radio_get_power_state] on an initialized driver is a pure
    read of the current power state, and after a successful
    [radio_set_power_state] it reads back the state that was requested. *)
Theorem power_state_read_back (m : machine) (req : radio_power_state_t) :
  initialized (g_radio m) = true ->
  radio_get_power_state true m = ((RADIO_OK, Some (power_state (g_radio m))), m)
  /\ (fst (radio_set_power_state req m) = RADIO_OK ->
      fst (radio_get_power_state true (snd (radio_set_power_state req m)))
      = (RADIO_OK, Some req)).
Proof.
  intros Hinit. split.
  - unfold radio_get_power_state. rewrite bind_load, Hinit. reflexivity.
  - open_machine m. unfold radio_set_power_state, radio_get_power_state.
    run_monad. simpl_state. rewrite Hinit. cbn [negb].
    repeat (case_if; run_monad; simpl_state; try rewrite Hinit; cbn [negb]);
      intros Hok; try discriminate Hok; try reflexivity.
    all: subst req; reflexivity.
Qed.

Lemma power_state_read_back_witness :
  fst (radio_get_power_state true
         (snd (radio_set_power_state RADIO_POWER_SLEEP (example_machine 0))))
  = (RADIO_OK, Some RADIO_POWER_SLEEP).
Proof.
  destruct (power_state_read_back (example_machine 0) RADIO_POWER_SLEEP)
    as [_ H].
  - reflexivity.
  - apply H. reflexivity.
Defined.

Lemma error_strings_distinct_witness :
  RADIO_ERROR_TIMEOUT = RADIO_ERROR_TIMEOUT
  /\ radio_get_error_string 5 = "Unknown error"%string.
Proof.
  destruct error_strings_distinct as (H1 & _ & H3).
  split; [apply H1; reflexivity | apply H3; right; reflexivity].
Defined.

(** ** More on the airtime model *)

Lemma airtime_bits_nonneg (n : Z) (modulation : radio_modulation_t) :
  0 <= n ->
  0 <= (let bits := (n + 16) * 8 in
        if modulation =? RADIO_MODULATION_FSK then bits
        else if modulation =? RADIO_MODULATION_GFSK then bits * 9 / 10
        else if modulation =? RADIO_MODULATION_LORA then bits * 3 / 2
        else if modulation =? RADIO_MODULATION_OOK then bits * 2
        else bits) * 1000000.
Proof.
  intros Hn. cbv zeta. apply Z.mul_nonneg_nonneg; [|lia].
  repeat split_if; try lia; apply Z.div_pos; lia.
Qed.

(** X28 -- for every payload up to the maximum and every data rate, the
    modulation schemes order the airtime as their efficiency factors say:
    GFSK is never longer than FSK, FSK never longer than LoRa, LoRa never
    longer than OOK. *)
Theorem airtime_modulation_order (n : Z) (data_rate : radio_data_rate_t) :
  0 <= n -> n <= RADIO_MAX_PAYLOAD_SIZE ->
  radio_calculate_airtime n data_rate RADIO_MODULATION_GFSK
  <= radio_calculate_airtime n data_rate RADIO_MODULATION_FSK
  /\ radio_calculate_airtime n data_rate RADIO_MODULATION_FSK
     <= radio_calculate_airtime n data_rate RADIO_MODULATION_LORA
  /\ radio_calculate_airtime n data_rate RADIO_MODULATION_LORA
     <= radio_calculate_airtime n data_rate RADIO_MODULATION_OOK.
Proof.
  intros H0 Hmax. rewrite !airtime_no_wrap by lia.
  change (RADIO_MODULATION_GFSK =? RADIO_MODULATION_FSK) with false.
  change (RADIO_MODULATION_GFSK =? RADIO_MODULATION_GFSK) with true.
  change (RADIO_MODULATION_FSK =? RADIO_MODULATION_FSK) with true.
  change (RADIO_MODULATION_LORA =? RADIO_MODULATION_FSK) with false.
  change (RADIO_MODULATION_LORA =? RADIO_MODULATION_GFSK) with false.
  change (RADIO_MODULATION_LORA =? RADIO_MODULATION_LORA) with true.
  change (RADIO_MODULATION_OOK =? RADIO_MODULATION_FSK) with false.
  change (RADIO_MODULATION_OOK =? RADIO_MODULATION_GFSK) with false.
  change (RADIO_MODULATION_OOK =? RADIO_MODULATION_LORA) with false.
  change (RADIO_MODULATION_OOK =? RADIO_MODULATION_OOK) with true.
  cbv zeta iota.
  pose proof (bps_of_pos data_rate) as Hbps.
  assert (Hg : (n + 16) * 8 * 9 / 10 <= (n + 16) * 8)
    by (apply Z.div_le_upper_bound; lia).
  assert (Hl : (n + 16) * 8 <= (n + 16) * 8 * 3 / 2)
    by (apply Z.div_le_lower_bound; lia).
  assert (Ho : (n + 16) * 8 * 3 / 2 <= (n + 16) * 8 * 2)
    by (apply Z.div_le_upper_bound; lia).
  repeat split; apply Z.div_le_mono; lia.
Qed.

Lemma airtime_modulation_order_witness :
  radio_calculate_airtime 32 RADIO_DATA_RATE_50K RADIO_MODULATION_GFSK
  <= radio_calculate_airtime 32 RADIO_DATA_RATE_50K RADIO_MODULATION_FSK
  /\ radio_calculate_airtime 32 RADIO_DATA_RATE_50K RADIO_MODULATION_FSK
     <= radio_calculate_airtime 32 RADIO_DATA_RATE_50K RADIO_MODULATION_LORA
  /\ radio_calculate_airtime 32 RADIO_DATA_RATE_50K RADIO_MODULATION_LORA
     <= radio_calculate_airtime 32 RADIO_DATA_RATE_50K RADIO_MODULATION_OOK.
Proof.
  apply airtime_modulation_order; vm_compute; discriminate.
Defined.

(** X29 -- for every payload up to the maximum and every modulation, a
    faster data rate never gives a longer airtime: 250k <= 100k <= 50k <=
    10k <= 1k. *)
Theorem airtime_rate_order (n : Z) (modulation : radio_modulation_t) :
  0 <= n -> n <= RADIO_MAX_PAYLOAD_SIZE ->
  radio_calculate_airtime n RADIO_DATA_RATE_250K modulation
  <= radio_calculate_airtime n RADIO_DATA_RATE_100K modulation
  /\ radio_calculate_airtime n RADIO_DATA_RATE_100K modulation
     <= radio_calculate_airtime n RADIO_DATA_RATE_50K modulation
  /\ radio_calculate_airtime n RADIO_DATA_RATE_50K modulation
     <= radio_calculate_airtime n RADIO_DATA_RATE_10K modulation
  /\ radio_calculate_airtime n RADIO_DATA_RATE_10K modulation
     <= radio_calculate_airtime n RADIO_DATA_RATE_1K modulation.
Proof.
  intros H0 Hmax. rewrite !airtime_no_wrap by lia.
  pose proof (airtime_bits_nonneg n modulation H0) as Hb.
  change (bps_of RADIO_DATA_RATE_250K) with 250000.
  change (bps_of RADIO_DATA_RATE_100K) with 100000.
  change (bps_of RADIO_DATA_RATE_50K) with 50000.
  change (bps_of RADIO_DATA_RATE_10K) with 10000.
  change (bps_of RADIO_DATA_RATE_1K) with 1000.
  repeat split; apply Z.div_le_compat_l; try exact Hb; lia.
Qed.

Lemma airtime_rate_order_witness :
  radio_calculate_airtime 32 RADIO_DATA_RATE_250K RADIO_MODULATION_GFSK
  <= radio_calculate_airtime 32 RADIO_DATA_RATE_100K RADIO_MODULATION_GFSK
  /\ radio_calculate_airtime 32 RADIO_DATA_RATE_100K RADIO_MODULATION_GFSK
     <= radio_calculate_airtime 32 RADIO_DATA_RATE_50K RADIO_MODULATION_GFSK
  /\ radio_calculate_airtime 32 RADIO_DATA_RATE_50K RADIO_MODULATION_GFSK
     <= radio_calculate_airtime 32 RADIO_DATA_RATE_10K RADIO_MODULATION_GFSK
  /\ radio_calculate_airtime 32 RADIO_DATA_RATE_10K RADIO_MODULATION_GFSK
     <= radio_calculate_airtime 32 RADIO_DATA_RATE_1K RADIO_MODULATION_GFSK.
Proof.
  apply airtime_rate_order; vm_compute; discriminate.
Defined.

(** X30 -- values outside the enumerations fall into the default
    branches: an unknown data rate is treated as 10 kbps, an unknown
    modulation as FSK (no factor), and an unknown power state draws the
    Idle current. *)
Theorem unknown_codes_use_defaults (n code d : Z) :
  code < 0 \/ 4 < code ->
  (forall modulation,
      radio_calculate_airtime n code modulation
      = radio_calculate_airtime n RADIO_DATA_RATE_10K modulation)
  /\ (forall data_rate,
      radio_calculate_airtime n data_rate code
      = radio_calculate_airtime n data_rate RADIO_MODULATION_FSK)
  /\ (5 < code \/ code < 0 ->
      radio_estimate_power_consumption code d
      = radio_estimate_power_consumption RADIO_POWER_IDLE d).
Proof.
  intros Hcode.
  unfold radio_calculate_airtime, radio_estimate_power_consumption,
    RADIO_DATA_RATE_1K, RADIO_DATA_RATE_10K, RADIO_DATA_RATE_50K,
    RADIO_DATA_RATE_100K, RADIO_DATA_RATE_250K, RADIO_MODULATION_FSK,
    RADIO_MODULATION_GFSK, RADIO_MODULATION_LORA, RADIO_MODULATION_OOK,
    RADIO_POWER_OFF, RADIO_POWER_SLEEP, RADIO_POWER_STANDBY,
    RADIO_POWER_IDLE, RADIO_POWER_RX, RADIO_POWER_TX.
  split; [|split].
  - intros modulation.
    destruct (Z.eqb_spec code 0); [lia|].
    destruct (Z.eqb_spec code 1); [lia|].
    destruct (Z.eqb_spec code 2); [lia|].
    destruct (Z.eqb_spec code 3); [lia|].
    destruct (Z.eqb_spec code 4); [lia|]. reflexivity.
  - intros data_rate.
    destruct (Z.eqb_spec code 0); [lia|].
    destruct (Z.eqb_spec code 1); [lia|].
    destruct (Z.eqb_spec code 2); [lia|].
    destruct (Z.eqb_spec code 3); [lia|]. reflexivity.
  - intros Hp.
    destruct (Z.eqb_spec code 0); [lia|].
    destruct (Z.eqb_spec code 1); [lia|].
    destruct (Z.eqb_spec code 2); [lia|].
    destruct (Z.eqb_spec code 3); [lia|].
    destruct (Z.eqb_spec code 4); [lia|].
    destruct (Z.eqb_spec code 5); [lia|]. reflexivity.
Qed.

Lemma unknown_codes_use_defaults_witness :
  radio_calculate_airtime 32 9 RADIO_MODULATION_GFSK
  = radio_calculate_airtime 32 RADIO_DATA_RATE_10K RADIO_MODULATION_GFSK.
Proof.
  destruct (unknown_codes_use_defaults 32 9 0) as (H & _).
  - right. vm_compute. reflexivity.
  - apply H.
Defined.
